(** * OpenShift SNO hub installer and web cache: a shallow embedding

    The Go sources of the repository are embedded as functions of a small
    trace monad.  Everything the program asks of the outside world (the
    iDRAC Redfish service, the file system, external processes, the
    cancellation context) is answered by an environment that may depend on
    the whole history of the run; every such interaction, every log line
    and every sleep is recorded as an event.

    Embedded files:
    - go-installer/internal/idrac/client.go.backup   (package idrac, Client)
    - go-installer/internal/idrac/client_enhanced.go (EnhancedClient,
      with GetLifecycleControllerInfo)
    - go-installer/internal/ssh/manager.go           (packages ssh, openshift)
    - package config (Validate, DefaultConfig and the path helpers)
    - the application driver (package app, EnhancedApp, Run and its
      subcommands)
    - the web cache server (package main: handler and calculateETag)        *)

From Stdlib Require Import List String Ascii ZArith Bool Lia Arith.
Import ListNotations.
Open Scope string_scope.
Open Scope list_scope.

Set Implicit Arguments.
Set Warnings "-register-all".

(* ------------------------------------------------------------------ *)
(** ** Byte-exact string helpers of the Go standard library            *)
(* ------------------------------------------------------------------ *)

Module GoStrings.

(** strings.HasPrefix *)
Fixpoint HasPrefix (s p : string) : bool :=
  match p, s with
  | EmptyString, _ => true
  | String c p', String d s' => Ascii.eqb c d && HasPrefix s' p'
  | String _ _, EmptyString => false
  end.

(** strings.Contains *)
Fixpoint Contains (s sub : string) : bool :=
  HasPrefix s sub ||
  match s with
  | EmptyString => false
  | String _ s' => Contains s' sub
  end.

(** strings.Split(s, "\n"): always at least one piece. *)
Fixpoint SplitLines (s : string) : list string :=
  match s with
  | EmptyString => [EmptyString]
  | String c s' =>
      if Ascii.eqb c "010"%char then EmptyString :: SplitLines s'
      else match SplitLines s' with
           | l :: ls => String c l :: ls
           | [] => [String c EmptyString]
           end
  end.

(** strings.Join *)
Definition Join (l : list string) (sep : string) : string :=
  String.concat sep l.

(** s[:len(s)-n]; Go panics when the bound is negative. *)
Definition dropSuffixBytes (s : string) (n : nat) : option string :=
  if Nat.ltb (String.length s) n then None
  else Some (String.substring 0 (String.length s - n) s).

End GoStrings.

(* ------------------------------------------------------------------ *)
(** ** Data model                                                      *)
(* ------------------------------------------------------------------ *)

(** Request payloads of package idrac. *)
Record BootConfig := {
  BootSourceOverrideTarget : string;
  BootSourceOverrideEnabled : string
}.

Record SystemBoot := { Boot : BootConfig }.

Record ResetRequest := { ResetType : string }.

Record VirtualMediaRequest := { Image : string }.

(** The [body interface{}] handed to makeRequest. *)
Inductive Body :=
| BodyNil
| BodyEmptyMap
| BodySystemBoot (b : SystemBoot)
| BodyReset (r : ResetRequest)
| BodyVirtualMedia (r : VirtualMediaRequest).

(** Arguments of a format string (fmt.Errorf and the logger). *)
Inductive fmtarg (E : Type) :=
| ArgS (s : string)
| ArgD (n : Z)
| ArgB (b : bool)
| ArgL (l : list string)
| ArgBody (b : Body)
| ArgE (e : E).

Arguments ArgS {E} s.
Arguments ArgD {E} n.
Arguments ArgB {E} b.
Arguments ArgL {E} l.
Arguments ArgBody {E} b.
Arguments ArgE {E} e.

(** A non-nil Go [error]: built by fmt.Errorf in this repository (the
    format string and its arguments are kept apart, [%w] and [%v] of an
    error are [ArgE]), or handed over by the standard library. *)
Inductive error :=
| Errorf (format : string) (args : list (fmtarg error))
| Foreign (descr : string).

Definition arg := fmtarg error.

(** The Go interface value [error]: [None] is nil. *)
Definition goerror := option error.

Inductive Level := LInfo | LWarn | LError | LDebug | LSuccess.

Record Request := {
  Method : string;
  URL : string;
  AuthUser : string;
  AuthPass : string;
  Payload : Body
}.

(** What io.ReadAll gives on the response body. *)
Inductive BodyRead :=
| ReadFail (e : error)
| ReadOk (data : string).

Record Response := {
  StatusCode : Z;
  RespBody : BodyRead
}.

(** os.Stat followed by os.IsNotExist. *)
Inductive StatResult :=
| StatOk
| StatNotExist
| StatErr (e : error).

Definition IsNotExist (r : StatResult) : bool :=
  match r with StatNotExist => true | _ => false end.

Inductive OsCall :=
| RemoveAll (path : string)
| MkdirAll (path : string) (perm : Z)
| Chmod (path : string) (perm : Z)
| Setenv (key value : string).

Inductive Event :=
| EvLog (lvl : Level) (format : string) (args : list arg)
| EvHTTP (req : Request) (res : error + Response)
| EvSleep (seconds : Z)
| EvCtx (done : goerror)
| EvStat (path : string) (res : StatResult)
| EvOs (call : OsCall) (res : goerror)
| EvExec (argv : list string) (output : string) (err : goerror).

Definition history := list Event.

(** The outside world.  Every answer may depend on all that happened
    before in the run. *)
Record Env := {
  http_Do : history -> Request -> error + Response;
  ctx_Err : history -> option string;
  os_Stat : history -> string -> StatResult;
  os_Call : history -> OsCall -> goerror;
  exec_CombinedOutput : history -> list string -> string * goerror
}.

Record SystemInfo := {
  Manufacturer : string;
  Model : string;
  SerialNumber : string;
  BiosVersion : string;
  PowerState : string;
  Health : string
}.

Record VirtualMediaInfo := {
  ConnectedVia : string;
  VMImage : string;
  ImageName : string;
  Inserted : bool;
  MediaTypes : list string
}.

(** Pure functions of the Go standard library that the code calls and
    whose definition is not part of this repository. *)
Record GoLib := {
  http_NewRequest : string -> string -> goerror;
  json_Unmarshal_SystemInfo : string -> error + SystemInfo;
  json_Unmarshal_VirtualMediaInfo : string -> error + VirtualMediaInfo;
  filepath_Join : list string -> string;
  filepath_Base : string -> string;
  strings_Fields : string -> list string
}.

(** Package config. *)
Record IDRACConfig := {
  IP : string;
  Username : string;
  Password : string;
  VerifySSL : bool;
  Timeout : Z
}.

Record OpenShiftConfig := {
  Version : string;
  ClusterName : string;
  RegistryAuthFile : string
}.

Record RemoteConfig := {
  User : string;
  Host : string;
  Path : string;
  ISOURL : string
}.

Record PathsConfig := {
  WorkDir : string;
  SourceDir : string;
  SSHKeyPath : string;
  InstallerPath : string
}.

Record Config := {
  IDRAC : IDRACConfig;
  OpenShift : OpenShiftConfig;
  Remote : RemoteConfig;
  Paths : PathsConfig
}.

(* ------------------------------------------------------------------ *)
(** ** The trace monad                                                 *)
(* ------------------------------------------------------------------ *)

(** A computation either returns or panics (a Go run-time panic). *)
Inductive result (A : Type) :=
| Val (a : A)
| Panic (msg : string).

Arguments Val {A} a.
Arguments Panic {A} msg.

(** A computation reads the history so far and returns its outcome
    together with the events it adds, oldest first. *)
Definition M (A : Type) := history -> result A * list Event.

Definition ret {A} (a : A) : M A := fun _ => (Val a, []).

Definition bind {A B} (m : M A) (f : A -> M B) : M B :=
  fun h =>
    match m h with
    | (Val a, e1) =>
        match f a (h ++ e1) with
        | (r, e2) => (r, e1 ++ e2)
        end
    | (Panic msg, e1) => (Panic msg, e1)
    end.

Definition panic {A} (msg : string) : M A := fun _ => (Panic msg, []).

Declare Scope go_scope.
Delimit Scope go_scope with go.
Notation "x <- c1 ;; c2" := (bind c1 (fun x => c2))
  (at level 61, c1 at next level, right associativity) : go_scope.
Notation "c1 ;; c2" := (bind c1 (fun _ => c2))
  (at level 61, right associativity) : go_scope.
Open Scope go_scope.

Definition emit (e : Event) : M unit := fun _ => (Val tt, [e]).

Definition outcome {A} (p : result A * list Event) : result A := fst p.
Definition events {A} (p : result A * list Event) : list Event := snd p.

(** http.StatusOK and friends. *)
Definition StatusOK : Z := 200.
Definition StatusAccepted : Z := 202.

(* ------------------------------------------------------------------ *)
(** ** Primitive interactions                                          *)
(* ------------------------------------------------------------------ *)

Definition logf (lvl : Level) (format : string) (args : list arg) : M unit :=
  emit (EvLog lvl format args).

Definition LogInfo := logf LInfo.
Definition LogWarn := logf LWarn.
Definition LogError := logf LError.
Definition LogDebug := logf LDebug.
Definition LogSuccess := logf LSuccess.

(** time.Sleep(n * time.Second) *)
Definition Sleep (seconds : Z) : M unit := emit (EvSleep seconds).

(** httpClient.Do *)
Definition httpDo (env : Env) (req : Request) : M (error + Response) :=
  fun h => let r := http_Do env h req in (Val r, [EvHTTP req r]).

(** select { case <-ctx.Done(): ...; default: } *)
Definition ctxDone (env : Env) : M goerror :=
  fun h =>
    let r := option_map Foreign (ctx_Err env h) in (Val r, [EvCtx r]).

(** os.Stat *)
Definition osStat (env : Env) (path : string) : M StatResult :=
  fun h => let r := os_Stat env h path in (Val r, [EvStat path r]).

(** os.RemoveAll, os.MkdirAll, os.Chmod, os.Setenv *)
Definition osCall (env : Env) (call : OsCall) : M goerror :=
  fun h => let r := os_Call env h call in (Val r, [EvOs call r]).

(** exec.Command(...).CombinedOutput() *)
Definition execCombinedOutput (env : Env) (argv : list string)
  : M (string * goerror) :=
  fun h =>
    let r := exec_CombinedOutput env h argv in
    (Val r, [EvExec argv (fst r) (snd r)]).

(** The Go idiom
    [if err := step(); err != nil { return fmt.Errorf(format, err) }]
    followed by the rest of the function. *)
Definition orFail (step : M goerror) (format : string) (rest : M goerror)
  : M goerror :=
  e <- step ;;
  match e with
  | Some err => ret (Some (Errorf format [ArgE err]))
  | None => rest
  end.

(* ------------------------------------------------------------------ *)
(** ** Package idrac: the Redfish client                               *)
(* ------------------------------------------------------------------ *)

Module idrac.

Record Client := {
  config : IDRACConfig;
  baseURL : string
}.

(** NewClient (the HTTP transport itself is the environment). *)
Definition NewClient (cfg : IDRACConfig) : Client :=
  {| config := cfg; baseURL := ("https://" ++ IP cfg)%string |}.

Definition SystemPath : string := "/redfish/v1/Systems/System.Embedded.1".
Definition ResetPath : string :=
  "/redfish/v1/Systems/System.Embedded.1/Actions/ComputerSystem.Reset".
Definition VirtualMediaPath : string :=
  "/redfish/v1/Managers/iDRAC.Embedded.1/VirtualMedia/CD".
Definition EjectPath : string :=
  "/redfish/v1/Managers/iDRAC.Embedded.1/VirtualMedia/CD/Actions/VirtualMedia.EjectMedia".
Definition InsertPath : string :=
  "/redfish/v1/Managers/iDRAC.Embedded.1/VirtualMedia/CD/Actions/VirtualMedia.InsertMedia".

Definition maxAttempts : nat := 30.

Section WithWorld.

Variable lib : GoLib.
Variable env : Env.

Definition isNilBody (b : Body) : bool :=
  match b with BodyNil => true | _ => false end.

(** makeRequest.  json.Marshal cannot fail on the payload types of this
    package, so that branch is not reachable and is left out. *)
Definition makeRequest (c : Client) (method endpoint : string) (body : Body)
  : M (error + Response) :=
  let url := (baseURL c ++ endpoint)%string in
  match http_NewRequest lib method url with
  | Some err => ret (inl (Errorf "failed to create request: %w" [ArgE err]))
  | None =>
      LogDebug "Making %s request to %s" [ArgS method; ArgS url] ;;
      (if isNilBody body then ret tt
       else LogDebug "Request body: %+v" [ArgBody body]) ;;
      r <- httpDo env {| Method := method; URL := url;
                     AuthUser := Username (config c);
                     AuthPass := Password (config c);
                     Payload := body |} ;;
      match r with
      | inl err => ret (inl (Errorf "failed to make request: %w" [ArgE err]))
      | inr resp => ret (inr resp)
      end
  end.

(** CheckConnectivity *)
Definition CheckConnectivity (c : Client) : M goerror :=
  LogInfo "Checking iDRAC connectivity to %s..." [ArgS (IP (config c))] ;;
  r <- makeRequest c "GET" SystemPath BodyNil ;;
  match r with
  | inl err =>
      LogError "Failed to connect to iDRAC at %s: %v"
               [ArgS (IP (config c)); ArgE err] ;;
      ret (Some err)
  | inr resp =>
      if negb (StatusCode resp =? StatusOK)%Z then
        LogError "iDRAC returned status code: %d" [ArgD (StatusCode resp)] ;;
        ret (Some (Errorf "iDRAC returned status code: %d"
                          [ArgD (StatusCode resp)]))
      else
        match RespBody resp with
        | ReadFail err =>
            ret (Some (Errorf "failed to read response body: %w" [ArgE err]))
        | ReadOk body =>
            if negb (GoStrings.Contains body "System.Embedded.1") then
              LogError "Invalid response from iDRAC" [] ;;
              ret (Some (Errorf "invalid response from iDRAC" []))
            else
              LogSuccess "iDRAC connectivity verified" [] ;;
              ret None
        end
  end.

(** GetSystemInfo *)
Definition GetSystemInfo (c : Client) : M (error + SystemInfo) :=
  LogInfo "Getting system information..." [] ;;
  r <- makeRequest c "GET" SystemPath BodyNil ;;
  match r with
  | inl err =>
      LogError "Failed to get system information: %v" [ArgE err] ;;
      ret (inl err)
  | inr resp =>
      if negb (StatusCode resp =? StatusOK)%Z then
        ret (inl (Errorf "failed to get system info, status code: %d"
                         [ArgD (StatusCode resp)]))
      else
        match RespBody resp with
        | ReadFail err =>
            ret (inl (Errorf "failed to read response body: %w" [ArgE err]))
        | ReadOk body =>
            match json_Unmarshal_SystemInfo lib body with
            | inl err =>
                ret (inl (Errorf "failed to unmarshal system info: %w"
                                 [ArgE err]))
            | inr systemInfo =>
                LogInfo "System Information:" [] ;;
                LogInfo "  Manufacturer: %s" [ArgS (Manufacturer systemInfo)] ;;
                LogInfo "  Model: %s" [ArgS (Model systemInfo)] ;;
                LogInfo "  Serial Number: %s" [ArgS (SerialNumber systemInfo)] ;;
                LogInfo "  BIOS Version: %s" [ArgS (BiosVersion systemInfo)] ;;
                ret (inr systemInfo)
            end
        end
  end.

(** GetSystemPowerState: on failure the returned string is empty. *)
Definition GetSystemPowerState (c : Client) : M (string * goerror) :=
  LogInfo "Getting system power state..." [] ;;
  r <- GetSystemInfo c ;;
  match r with
  | inl err => ret (EmptyString, Some err)
  | inr systemInfo =>
      LogInfo "System power state: %s" [ArgS (PowerState systemInfo)] ;;
      ret (PowerState systemInfo, None)
  end.

(** GetSystemHealth *)
Definition GetSystemHealth (c : Client) : M (string * goerror) :=
  LogInfo "Getting system health status..." [] ;;
  r <- GetSystemInfo c ;;
  match r with
  | inl err => ret (EmptyString, Some err)
  | inr systemInfo =>
      LogInfo "System health: %s" [ArgS (Health systemInfo)] ;;
      ret (Health systemInfo, None)
  end.

(** The loop of WaitForSystemPowerOn and WaitForSystemPowerOff.  The Go
    loop [for attempt < maxAttempts] with [attempt++] as its last
    statement is a recursion on [remaining = maxAttempts - attempt]. *)
Fixpoint waitLoop (c : Client) (expected : string)
         (failureLog failure success : string) (remaining : nat) : M goerror :=
  match remaining with
  | O =>
      LogError failureLog [] ;;
      ret (Some (Errorf failure []))
  | S remaining' =>
      let attempt := (maxAttempts - remaining)%nat in
      done <- ctxDone env ;;
      match done with
      | Some err => ret (Some err)
      | None =>
          p <- GetSystemPowerState c ;;
          let '(powerState, err) := p in
          let wait :=
            LogInfo "System power state: %s, waiting... (attempt %d/%d)"
                    [ArgS powerState; ArgD (Z.of_nat attempt + 1);
                     ArgD (Z.of_nat maxAttempts)] ;;
            Sleep 10 ;;
            waitLoop c expected failureLog failure success remaining' in
          match err with
          | Some e =>
              LogWarn "Failed to get power state: %v" [ArgE e] ;;
              wait
          | None =>
              if String.eqb powerState expected then
                LogSuccess success [] ;;
                ret None
              else wait
          end
      end
  end.

(** WaitForSystemPowerOn *)
Definition WaitForSystemPowerOn (c : Client) : M goerror :=
  LogInfo "Waiting for system to power on..." [] ;;
  waitLoop c "On" "System failed to power on within expected time"
           "system failed to power on within expected time"
           "System is now powered on" maxAttempts.

(** WaitForSystemPowerOff *)
Definition WaitForSystemPowerOff (c : Client) : M goerror :=
  LogInfo "Waiting for system to power off..." [] ;;
  waitLoop c "Off" "System failed to power off within expected time"
           "system failed to power off within expected time"
           "System is now powered off" maxAttempts.

(** resp.StatusCode != http.StatusOK && resp.StatusCode != http.StatusAccepted *)
Definition notAccepted (code : Z) : bool :=
  negb (code =? StatusOK)%Z && negb (code =? StatusAccepted)%Z.

(** PowerOnSystem *)
Definition PowerOnSystem (c : Client) : M goerror :=
  LogInfo "Powering on system..." [] ;;
  p <- GetSystemPowerState c ;;
  let '(powerState, err) := p in
  match err with
  | Some e => ret (Some e)
  | None =>
      if String.eqb powerState "On" then
        LogInfo "System is already powered on" [] ;;
        ret None
      else
        r <- makeRequest c "POST" ResetPath
                         (BodyReset {| ResetType := "On" |}) ;;
        match r with
        | inl e =>
            LogError "Failed to power on system: %v" [ArgE e] ;;
            ret (Some e)
        | inr resp =>
            if notAccepted (StatusCode resp) then
              ret (Some (Errorf "failed to power on system, status code: %d"
                                [ArgD (StatusCode resp)]))
            else
              LogSuccess "System power on command sent successfully" [] ;;
              WaitForSystemPowerOn c
        end
  end.

(** PowerOffSystem *)
Definition PowerOffSystem (c : Client) : M goerror :=
  LogInfo "Powering off system..." [] ;;
  p <- GetSystemPowerState c ;;
  let '(powerState, err) := p in
  match err with
  | Some e => ret (Some e)
  | None =>
      if String.eqb powerState "Off" then
        LogInfo "System is already powered off" [] ;;
        ret None
      else
        r <- makeRequest c "POST" ResetPath
                         (BodyReset {| ResetType := "ForceOff" |}) ;;
        match r with
        | inl e =>
            LogError "Failed to power off system: %v" [ArgE e] ;;
            ret (Some e)
        | inr resp =>
            if notAccepted (StatusCode resp) then
              ret (Some (Errorf "failed to power off system, status code: %d"
                                [ArgD (StatusCode resp)]))
            else
              LogSuccess "System power off command sent successfully" [] ;;
              WaitForSystemPowerOff c
        end
  end.

(** RestartSystem *)
Definition RestartSystem (c : Client) : M goerror :=
  LogInfo "Restarting system..." [] ;;
  r <- makeRequest c "POST" ResetPath
                   (BodyReset {| ResetType := "ForceRestart" |}) ;;
  match r with
  | inl e =>
      LogError "Failed to restart system: %v" [ArgE e] ;;
      ret (Some e)
  | inr resp =>
      if notAccepted (StatusCode resp) then
        ret (Some (Errorf "failed to restart system, status code: %d"
                          [ArgD (StatusCode resp)]))
      else
        LogSuccess "System restart command sent successfully" [] ;;
        ret None
  end.

Definition bootOnce (target : string) : Body :=
  BodySystemBoot
    {| Boot := {| BootSourceOverrideTarget := target;
                  BootSourceOverrideEnabled := "Once" |} |}.

(** SetVirtualCDBoot *)
Definition SetVirtualCDBoot (c : Client) : M goerror :=
  LogInfo "Setting boot device to Virtual CD/DVD..." [] ;;
  r <- makeRequest c "PATCH" SystemPath (bootOnce "Cd") ;;
  match r with
  | inl e =>
      LogError "Failed to set boot device to Virtual CD/DVD: %v" [ArgE e] ;;
      ret (Some e)
  | inr resp =>
      if negb (StatusCode resp =? StatusOK)%Z then
        ret (Some (Errorf
               "failed to set boot device to Virtual CD/DVD, status code: %d"
               [ArgD (StatusCode resp)]))
      else
        LogSuccess "Boot device set to Virtual CD/DVD successfully" [] ;;
        ret None
  end.

(** SetHDDBoot *)
Definition SetHDDBoot (c : Client) : M goerror :=
  LogInfo "Setting boot device to HDD..." [] ;;
  r <- makeRequest c "PATCH" SystemPath (bootOnce "Hdd") ;;
  match r with
  | inl e =>
      LogError "Failed to set boot device to HDD: %v" [ArgE e] ;;
      ret (Some e)
  | inr resp =>
      if negb (StatusCode resp =? StatusOK)%Z then
        ret (Some (Errorf "failed to set boot device to HDD, status code: %d"
                          [ArgD (StatusCode resp)]))
      else
        LogSuccess "Boot device set to HDD successfully" [] ;;
        ret None
  end.

(** EjectVirtualMedia *)
Definition EjectVirtualMedia (c : Client) : M goerror :=
  LogInfo "Ejecting virtual media..." [] ;;
  r <- makeRequest c "POST" EjectPath BodyEmptyMap ;;
  match r with
  | inl e =>
      LogError "Failed to eject virtual media: %v" [ArgE e] ;;
      ret (Some e)
  | inr resp =>
      if notAccepted (StatusCode resp) then
        ret (Some (Errorf "failed to eject virtual media, status code: %d"
                          [ArgD (StatusCode resp)]))
      else
        LogSuccess "Virtual media ejected successfully" [] ;;
        Sleep 5 ;;
        ret None
  end.

(** InsertVirtualMedia *)
Definition InsertVirtualMedia (c : Client) (isoURL : string) : M goerror :=
  LogInfo "Inserting ISO image: %s" [ArgS isoURL] ;;
  r <- makeRequest c "POST" InsertPath
                   (BodyVirtualMedia {| Image := isoURL |}) ;;
  match r with
  | inl e =>
      LogError "Failed to insert virtual media: %v" [ArgE e] ;;
      ret (Some e)
  | inr resp =>
      if notAccepted (StatusCode resp) then
        ret (Some (Errorf "failed to insert virtual media, status code: %d"
                          [ArgD (StatusCode resp)]))
      else
        LogSuccess "Virtual media inserted successfully" [] ;;
        Sleep 5 ;;
        ret None
  end.

(** *** EnhancedClient (client_enhanced.go); it embeds [*Client]. *)

(** GetVirtualMediaInfo *)
Definition GetVirtualMediaInfo (c : Client) : M (error + VirtualMediaInfo) :=
  LogInfo "Getting virtual media information..." [] ;;
  r <- makeRequest c "GET" VirtualMediaPath BodyNil ;;
  match r with
  | inl e =>
      LogError "Failed to get virtual media info: %v" [ArgE e] ;;
      ret (inl e)
  | inr resp =>
      if negb (StatusCode resp =? StatusOK)%Z then
        ret (inl (Errorf "failed to get virtual media info, status code: %d"
                         [ArgD (StatusCode resp)]))
      else
        match RespBody resp with
        | ReadFail e =>
            ret (inl (Errorf "failed to read response body: %w" [ArgE e]))
        | ReadOk body =>
            match json_Unmarshal_VirtualMediaInfo lib body with
            | inl e =>
                ret (inl (Errorf "failed to unmarshal virtual media info: %w"
                                 [ArgE e]))
            | inr mediaInfo =>
                LogInfo "Virtual Media Information:" [] ;;
                LogInfo "  Connected Via: %s" [ArgS (ConnectedVia mediaInfo)] ;;
                LogInfo "  Image: %s" [ArgS (VMImage mediaInfo)] ;;
                LogInfo "  Image Name: %s" [ArgS (ImageName mediaInfo)] ;;
                LogInfo "  Inserted: %t" [ArgB (Inserted mediaInfo)] ;;
                LogInfo "  Media Types: %v" [ArgL (MediaTypes mediaInfo)] ;;
                ret (inr mediaInfo)
            end
        end
  end.

(** The candidate boot targets, in priority order. *)
Definition virtualCDOptions : list string := ["RemoteCd"; "VirtualCd"; "Cd"].

(** The body of [for _, bootTarget := range virtualCDOptions]. *)
Fixpoint tryBootTargets (c : Client) (options : list string) : M goerror :=
  match options with
  | [] =>
      ret (Some (Errorf
        "failed to set boot device to Virtual CD/DVD with any supported option"
        []))
  | bootTarget :: rest =>
      LogInfo "Attempting to set boot device to %s..." [ArgS bootTarget] ;;
      r <- makeRequest c "PATCH" SystemPath (bootOnce bootTarget) ;;
      match r with
      | inl e =>
          LogWarn "Failed to set boot device to %s: %v"
                  [ArgS bootTarget; ArgE e] ;;
          tryBootTargets c rest
      | inr resp =>
          if (StatusCode resp =? StatusOK)%Z then
            LogSuccess "Boot device set to Virtual CD/DVD (%s) successfully"
                       [ArgS bootTarget] ;;
            ret None
          else
            LogWarn "Failed to set boot device to %s, status code: %d"
                    [ArgS bootTarget; ArgD (StatusCode resp)] ;;
            tryBootTargets c rest
      end
  end.

(** SetVirtualCDBootEnhanced *)
Definition SetVirtualCDBootEnhanced (c : Client) : M goerror :=
  LogInfo "Setting boot device to Virtual CD/DVD (Enhanced)..." [] ;;
  r <- GetVirtualMediaInfo c ;;
  match r with
  | inl e => LogWarn "Could not get virtual media info: %v" [ArgE e]
  | inr mediaInfo =>
      if negb (Inserted mediaInfo) then
        LogWarn "No virtual media is currently inserted" []
      else ret tt
  end ;;
  tryBootTargets c virtualCDOptions.

(** ManageVirtualMediaBootProcess *)
Definition ManageVirtualMediaBootProcess (c : Client) (isoURL : string)
  : M goerror :=
  LogInfo "Starting enhanced virtual media boot management process..." [] ;;
  LogInfo "Step 1: Ejecting existing virtual media..." [] ;;
  e1 <- EjectVirtualMedia c ;;
  match e1 with
  | Some e => LogWarn "Failed to eject existing virtual media: %v" [ArgE e]
  | None => ret tt
  end ;;
  Sleep 10 ;;
  LogInfo "Step 2: Inserting new virtual media..." [] ;;
  orFail (InsertVirtualMedia c isoURL) "failed to insert virtual media: %w" (
  Sleep 10 ;;
  LogInfo "Step 3: Setting boot device to virtual CD/DVD..." [] ;;
  orFail (SetVirtualCDBootEnhanced c)
         "failed to set boot device to virtual CD/DVD: %w" (
  LogInfo "Step 4: Restarting system..." [] ;;
  orFail (RestartSystem c) "failed to restart system: %w" (
  LogSuccess
    "Enhanced virtual media boot management process completed successfully"
    [] ;;
  ret None))).

End WithWorld.

(** *** GetLifecycleControllerInfo (lifecycle controller file of the
    package).  Its JSON decoder is a parameter of its own. *)

Record LifecycleStatus := {
  StatusHealth : string;
  StatusState : string
}.

Record LifecycleControllerInfo := {
  FirmwareVersion : string;
  Id : string;
  Name : string;
  Status : LifecycleStatus
}.

Definition ManagerPath : string := "/redfish/v1/Managers/iDRAC.Embedded.1".

Section Lifecycle.

Variable lib : GoLib.
Variable env : Env.
Variable json_Unmarshal_LifecycleControllerInfo :
  string -> error + LifecycleControllerInfo.

(** GetLifecycleControllerInfo *)
Definition GetLifecycleControllerInfo (c : Client)
  : M (error + LifecycleControllerInfo) :=
  LogInfo "Getting iDRAC lifecycle controller information..." [] ;;
  r <- makeRequest lib env c "GET" ManagerPath BodyNil ;;
  match r with
  | inl e =>
      LogError "Failed to get lifecycle controller info: %v" [ArgE e] ;;
      ret (inl e)
  | inr resp =>
      if negb (StatusCode resp =? StatusOK)%Z then
        ret (inl (Errorf
               "failed to get lifecycle controller info, status code: %d"
               [ArgD (StatusCode resp)]))
      else
        match RespBody resp with
        | ReadFail e =>
            ret (inl (Errorf "failed to read response body: %w" [ArgE e]))
        | ReadOk body =>
            match json_Unmarshal_LifecycleControllerInfo body with
            | inl e =>
                ret (inl (Errorf
                       "failed to unmarshal lifecycle controller info: %w"
                       [ArgE e]))
            | inr lcInfo =>
                LogInfo "iDRAC Lifecycle Controller Information:" [] ;;
                LogInfo "  Firmware Version: %s"
                        [ArgS (FirmwareVersion lcInfo)] ;;
                LogInfo "  ID: %s" [ArgS (Id lcInfo)] ;;
                LogInfo "  Name: %s" [ArgS (Name lcInfo)] ;;
                LogInfo "  Health: %s" [ArgS (StatusHealth (Status lcInfo))] ;;
                LogInfo "  State: %s" [ArgS (StatusState (Status lcInfo))] ;;
                ret (inr lcInfo)
            end
        end
  end.

End Lifecycle.

End idrac.

(* ------------------------------------------------------------------ *)
(** ** Package config: the two path helpers                            *)
(* ------------------------------------------------------------------ *)

Module config.

Section WithLib.

Variable lib : GoLib.

(** GetISOFilePath *)
Definition GetISOFilePath (c : Config) : string :=
  filepath_Join lib [WorkDir (Paths c); "agent.x86_64.iso"].

(** GetSSHKeyPrivatePath: the slice expression panics on a path shorter
    than four bytes. *)
Definition GetSSHKeyPrivatePath (c : Config) : M string :=
  match GoStrings.dropSuffixBytes (SSHKeyPath (Paths c)) 4 with
  | Some s => ret s
  | None => panic "slice bounds out of range"
  end.

End WithLib.

(** Validate: the first empty required field, in this order. *)
Definition Validate (c : Config) : goerror :=
  if String.eqb (IP (IDRAC c)) EmptyString then
    Some (Errorf "idrac.ip is required" [])
  else if String.eqb (Username (IDRAC c)) EmptyString then
    Some (Errorf "idrac.username is required" [])
  else if String.eqb (Password (IDRAC c)) EmptyString then
    Some (Errorf "idrac.password is required" [])
  else if String.eqb (Version (OpenShift c)) EmptyString then
    Some (Errorf "openshift.version is required" [])
  else if String.eqb (ClusterName (OpenShift c)) EmptyString then
    Some (Errorf "openshift.cluster_name is required" [])
  else if String.eqb (Host (Remote c)) EmptyString then
    Some (Errorf "remote.host is required" [])
  else if String.eqb (User (Remote c)) EmptyString then
    Some (Errorf "remote.user is required" [])
  else None.

(** DefaultConfig; [home] is os.Getenv("HOME").  The fields the Go
    literal does not mention have their zero value. *)
Definition DefaultConfig (home : string) : Config :=
  {| IDRAC := {| IP := "192.168.1.228"; Username := "root";
                 Password := EmptyString; VerifySSL := false; Timeout := 30 |};
     OpenShift := {| Version := "4.16.45"; ClusterName := "sno-hub";
                     RegistryAuthFile := "./config.json" |};
     Remote := {| User := "rock"; Host := "192.168.1.21";
                  Path := "/apps/webcache/OSs/";
                  ISOURL := "http://192.168.1.21:8080/OSs/agent.x86_64.iso" |};
     Paths := {| WorkDir := "./workdir"; SourceDir := "./abi-master-0";
                 SSHKeyPath := (home ++ "/.ssh/id_ed25519.pub")%string;
                 InstallerPath := "./openshift-install" |} |}.

End config.

(* ------------------------------------------------------------------ *)
(** ** Package ssh                                                     *)
(* ------------------------------------------------------------------ *)

Module ssh.

Record Manager := { config : Config }.

Section WithWorld.

Variable lib : GoLib.
Variable env : Env.

(** generateSSHKey *)
Definition generateSSHKey (m : Manager) : M goerror :=
  sshKeyPath <- config.GetSSHKeyPrivatePath (config m) ;;
  LogInfo "Generating SSH key at %s..." [ArgS sshKeyPath] ;;
  r <- execCombinedOutput env
         ["ssh-keygen"; "-t"; "ed25519"; "-f"; sshKeyPath; "-N"; EmptyString;
          "-q"] ;;
  let '(output, err) := r in
  match err with
  | Some e =>
      LogError "Failed to generate SSH key: %s" [ArgS output] ;;
      ret (Some (Errorf "failed to generate SSH key: %w" [ArgE e]))
  | None =>
      LogSuccess "SSH key generated successfully" [] ;;
      ret None
  end.

(** CheckSSHKey *)
Definition CheckSSHKey (m : Manager) : M goerror :=
  LogInfo "Checking SSH key..." [] ;;
  sshKeyPath <- config.GetSSHKeyPrivatePath (config m) ;;
  st <- osStat env sshKeyPath ;;
  if IsNotExist st then
    LogInfo "SSH key not found. Generating a new ed25519 key..." [] ;;
    generateSSHKey m
  else
    LogInfo "SSH key found: %s" [ArgS sshKeyPath] ;;
    ret None.

(** fmt.Sprintf("%s@%s", user, host) *)
Definition userAtHost (m : Manager) : string :=
  (User (Remote (config m)) ++ "@" ++ Host (Remote (config m)))%string.

(** SetupSSHKey *)
Definition SetupSSHKey (m : Manager) : M goerror :=
  LogInfo "Setting up SSH key on remote host..." [] ;;
  let sshKeyPath := SSHKeyPath (Paths (config m)) in
  st <- osStat env sshKeyPath ;;
  if IsNotExist st then
    ret (Some (Errorf "SSH public key not found: %s" [ArgS sshKeyPath]))
  else
    LogInfo "Copying SSH key to %s@%s..."
            [ArgS (User (Remote (config m))); ArgS (Host (Remote (config m)))] ;;
    r <- execCombinedOutput env
           ["sshpass"; "-p"; Password (IDRAC (config m)); "ssh-copy-id";
            "-i"; sshKeyPath; "-o"; "StrictHostKeyChecking=no";
            userAtHost m] ;;
    let '(output, err) := r in
    match err with
    | Some e =>
        LogError "Failed to copy SSH key: %s" [ArgS output] ;;
        ret (Some (Errorf "failed to copy SSH key: %w" [ArgE e]))
    | None =>
        LogSuccess "SSH key copied successfully" [] ;;
        ret None
    end.

(** CopyFileToRemote *)
Definition CopyFileToRemote (m : Manager) (localPath remotePath : string)
  : M goerror :=
  LogInfo "Copying file to remote host..." [] ;;
  st <- osStat env localPath ;;
  if IsNotExist st then
    ret (Some (Errorf "local file not found: %s" [ArgS localPath]))
  else
    LogInfo "Copying %s to %s@%s:%s"
            [ArgS localPath; ArgS (User (Remote (config m)));
             ArgS (Host (Remote (config m))); ArgS remotePath] ;;
    r <- execCombinedOutput env
           ["scp"; "-r"; localPath;
            (userAtHost m ++ ":" ++ remotePath)%string] ;;
    let '(output, err) := r in
    match err with
    | Some e =>
        LogError "Failed to copy file: %s" [ArgS output] ;;
        ret (Some (Errorf "failed to copy file: %w" [ArgE e]))
    | None =>
        LogSuccess "File copied successfully" [] ;;
        ret None
    end.

(** CopyISOToRemote *)
Definition CopyISOToRemote (m : Manager) (isoPath : string) : M goerror :=
  LogInfo "Copying ISO to remote host..." [] ;;
  st <- osStat env isoPath ;;
  if IsNotExist st then
    LogWarn "ISO file not found: %s" [ArgS isoPath] ;;
    ret (Some (Errorf "ISO file not found: %s" [ArgS isoPath]))
  else
    let remotePath :=
      filepath_Join lib [Path (Remote (config m)); filepath_Base lib isoPath] in
    CopyFileToRemote m isoPath remotePath.

End WithWorld.

End ssh.

(* ------------------------------------------------------------------ *)
(** ** Package openshift                                               *)
(* ------------------------------------------------------------------ *)

Module openshift.

Record Installer := { config : Config }.

Definition configFiles : list string :=
  ["agent-config.yaml"; "install-config.yaml"].

Section WithWorld.

Variable lib : GoLib.
Variable env : Env.

(** The scan of getReleaseDigest over the lines of the command output. *)
Fixpoint findPullFrom (lines : list string) : option string :=
  match lines with
  | [] => None
  | line :: rest =>
      if GoStrings.Contains line "Pull From:" then
        match strings_Fields lib line with
        | _ :: _ :: digest :: _ => Some digest
        | _ => findPullFrom rest
        end
      else findPullFrom rest
  end.

(** getReleaseDigest *)
Definition getReleaseDigest (i : Installer) : M (string * goerror) :=
  r <- execCombinedOutput env
         ["oc"; "adm"; "release"; "info";
          ("quay.io/openshift-release-dev/ocp-release:"
             ++ Version (OpenShift (config i)) ++ "-x86_64")%string;
          "--registry-config"; RegistryAuthFile (OpenShift (config i))] ;;
  let '(output, err) := r in
  match err with
  | Some e =>
      ret (EmptyString,
           Some (Errorf "failed to get release info: %w" [ArgE e]))
  | None =>
      match findPullFrom (GoStrings.SplitLines output) with
      | Some digest => ret (digest, None)
      | None =>
          ret (EmptyString,
               Some (Errorf "could not find release digest in output" []))
      end
  end.

(** ExtractInstaller *)
Definition ExtractInstaller (i : Installer) : M goerror :=
  LogInfo "Extracting OpenShift installer..." [] ;;
  st <- osStat env (RegistryAuthFile (OpenShift (config i))) ;;
  if IsNotExist st then
    ret (Some (Errorf "registry auth file not found: %s"
                      [ArgS (RegistryAuthFile (OpenShift (config i)))]))
  else
    d <- getReleaseDigest i ;;
    let '(releaseDigest, err) := d in
    match err with
    | Some e => ret (Some (Errorf "failed to get release digest: %w" [ArgE e]))
    | None =>
        LogInfo "Release digest: %s" [ArgS releaseDigest] ;;
        let args := ["oc"; "adm"; "release"; "extract"; "-a";
                     RegistryAuthFile (OpenShift (config i));
                     "--command=openshift-install"; releaseDigest] in
        LogInfo "Running: %s" [ArgS (GoStrings.Join args " ")] ;;
        r <- execCombinedOutput env args ;;
        let '(output, err) := r in
        match err with
        | Some e =>
            LogError "Failed to extract installer: %s" [ArgS output] ;;
            ret (Some (Errorf "failed to extract installer: %w" [ArgE e]))
        | None =>
            LogSuccess "OpenShift installer extracted successfully" [] ;;
            ret None
        end
    end.

(** cleanWorkDir *)
Definition cleanWorkDir (i : Installer) : M goerror :=
  st <- osStat env (WorkDir (Paths (config i))) ;;
  if IsNotExist st then ret None
  else
    LogInfo "Cleaning existing work directory..." [] ;;
    osCall env (RemoveAll (WorkDir (Paths (config i)))).

(** copyOpenshiftDir *)
Definition copyOpenshiftDir (i : Installer) : M goerror :=
  let sourceOpenshiftDir :=
    filepath_Join lib [SourceDir (Paths (config i)); "openshift"] in
  let destOpenshiftDir :=
    filepath_Join lib [WorkDir (Paths (config i)); "openshift"] in
  st <- osStat env sourceOpenshiftDir ;;
  if IsNotExist st then
    ret (Some (Errorf "source openshift directory not found: %s"
                      [ArgS sourceOpenshiftDir]))
  else
    LogInfo "Copying %s -> %s" [ArgS sourceOpenshiftDir; ArgS destOpenshiftDir] ;;
    r <- execCombinedOutput env
           ["cp"; "-r"; sourceOpenshiftDir; WorkDir (Paths (config i))] ;;
    let '(output, err) := r in
    match err with
    | Some _ =>
        ret (Some (Errorf "failed to copy openshift directory: %s"
                          [ArgS output]))
    | None => ret None
    end.

(** The body of [for _, filename := range configFiles] in copyConfigFiles. *)
Fixpoint copyEach (i : Installer) (files : list string) : M goerror :=
  match files with
  | [] => ret None
  | filename :: rest =>
      let sourceFile :=
        filepath_Join lib [SourceDir (Paths (config i)); filename] in
      let destFile :=
        filepath_Join lib [WorkDir (Paths (config i)); filename] in
      st <- osStat env sourceFile ;;
      if IsNotExist st then
        ret (Some (Errorf "configuration file not found: %s"
                          [ArgS sourceFile]))
      else
        LogInfo "Copying %s -> %s" [ArgS sourceFile; ArgS destFile] ;;
        r <- execCombinedOutput env ["cp"; sourceFile; destFile] ;;
        let '(output, err) := r in
        match err with
        | Some _ =>
            ret (Some (Errorf "failed to copy %s: %s"
                              [ArgS filename; ArgS output]))
        | None => copyEach i rest
        end
  end.

(** copyConfigFiles *)
Definition copyConfigFiles (i : Installer) : M goerror :=
  copyEach i configFiles.

(** PrepareWorkDir *)
Definition PrepareWorkDir (i : Installer) : M goerror :=
  LogInfo "Preparing work directory..." [] ;;
  orFail (cleanWorkDir i) "failed to clean work directory: %w" (
  orFail (osCall env (MkdirAll (WorkDir (Paths (config i))) 493))
         "failed to create work directory: %w" (
  orFail (copyOpenshiftDir i) "failed to copy openshift directory: %w" (
  orFail (copyConfigFiles i) "failed to copy configuration files: %w" (
  LogSuccess "Work directory prepared successfully" [] ;;
  ret None)))).

(** The command line of [openshift-install agent create image]. *)
Definition createImageArgs (i : Installer) : list string :=
  [InstallerPath (Paths (config i)); "agent"; "create"; "image";
   "--dir"; WorkDir (Paths (config i)); "--log-level"; "debug"].

(** CreateAgentImage *)
Definition CreateAgentImage (i : Installer) : M goerror :=
  LogInfo "Creating agent image..." [] ;;
  st <- osStat env (InstallerPath (Paths (config i))) ;;
  if IsNotExist st then
    ret (Some (Errorf "openshift-install not found: %s"
                      [ArgS (InstallerPath (Paths (config i)))]))
  else
    e <- osCall env (Chmod (InstallerPath (Paths (config i))) 493) ;;
    match e with
    | Some err =>
        ret (Some (Errorf "failed to make installer executable: %w" [ArgE err]))
    | None =>
        LogInfo "Running: %s" [ArgS (GoStrings.Join (createImageArgs i) " ")] ;;
        r <- execCombinedOutput env (createImageArgs i) ;;
        let '(output, err) := r in
        match err with
        | Some e =>
            LogError "Failed to create agent image: %s" [ArgS output] ;;
            ret (Some (Errorf "failed to create agent image: %w" [ArgE e]))
        | None =>
            LogSuccess "Agent image created successfully" [] ;;
            ret None
        end
    end.

(** WaitForInstallComplete *)
Definition WaitForInstallComplete (i : Installer) : M goerror :=
  LogInfo "Waiting for installation to complete..." [] ;;
  let kubeconfigPath :=
    filepath_Join lib [WorkDir (Paths (config i)); "auth"; "kubeconfig"] in
  e <- osCall env (Setenv "KUBECONFIG" kubeconfigPath) ;;
  match e with
  | Some err => ret (Some (Errorf "failed to set KUBECONFIG: %w" [ArgE err]))
  | None =>
      let args := [InstallerPath (Paths (config i)); "agent"; "wait-for";
                   "install-complete"; "--dir"; WorkDir (Paths (config i))] in
      LogInfo "Running: %s" [ArgS (GoStrings.Join args " ")] ;;
      r <- execCombinedOutput env args ;;
      let '(output, err) := r in
      match err with
      | Some e =>
          LogError "Installation wait failed: %s" [ArgS output] ;;
          ret (Some (Errorf "installation wait failed: %w" [ArgE e]))
      | None =>
          LogSuccess "Installation completed successfully" [] ;;
          ret None
      end
  end.

(** GetISOFilePath *)
Definition GetISOFilePath (i : Installer) : string :=
  config.GetISOFilePath lib (config i).

End WithWorld.

End openshift.

(* ------------------------------------------------------------------ *)
(** ** Package app: EnhancedApp                                        *)
(* ------------------------------------------------------------------ *)

Module app.

Record EnhancedApp := {
  config : Config;
  idrac : idrac.Client;
  installer : openshift.Installer;
  sshManager : ssh.Manager
}.

(** NewEnhancedApp *)
Definition NewEnhancedApp (cfg : Config) : EnhancedApp :=
  {| config := cfg;
     idrac := idrac.NewClient (IDRAC cfg);
     installer := {| openshift.config := cfg |};
     sshManager := {| ssh.config := cfg |} |}.

Section WithWorld.

Variable lib : GoLib.
Variable env : Env.

(** powerOn *)
Definition powerOn (a : EnhancedApp) : M goerror :=
  LogInfo "Powering on system..." [] ;;
  idrac.PowerOnSystem lib env (idrac a).

(** powerOff *)
Definition powerOff (a : EnhancedApp) : M goerror :=
  LogInfo "Powering off system..." [] ;;
  idrac.PowerOffSystem lib env (idrac a).

(** cleanup *)
Definition cleanup (a : EnhancedApp) (powerOff : bool) : M goerror :=
  LogInfo "Performing cleanup..." [] ;;
  e1 <- idrac.EjectVirtualMedia lib env (idrac a) ;;
  match e1 with
  | Some e => LogWarn "Failed to eject virtual media: %v" [ArgE e]
  | None => ret tt
  end ;;
  e2 <- idrac.SetHDDBoot lib env (idrac a) ;;
  match e2 with
  | Some e => LogWarn "Failed to set boot to HDD: %v" [ArgE e]
  | None => ret tt
  end ;;
  (if powerOff then
     e3 <- idrac.PowerOffSystem lib env (idrac a) ;;
     match e3 with
     | Some e => LogWarn "Failed to power off system: %v" [ArgE e]
     | None => ret tt
     end
   else ret tt) ;;
  LogSuccess "Cleanup completed" [] ;;
  ret None.

(** manageVirtualMediaBootProcess *)
Definition manageVirtualMediaBootProcess (a : EnhancedApp) (isoURL : string)
  : M goerror :=
  LogInfo "Managing virtual media boot process..." [] ;;
  idrac.ManageVirtualMediaBootProcess lib env (idrac a) isoURL.

(** monitorInstallation *)
Definition monitorInstallation (a : EnhancedApp) : M goerror :=
  LogInfo "Monitoring installation progress..." [] ;;
  p <- idrac.GetSystemPowerState lib env (idrac a) ;;
  let '(powerState, err) := p in
  match err with
  | Some e =>
      LogWarn "Failed to get power state: %v" [ArgE e] ;;
      ret None
  | None =>
      if String.eqb powerState "On" then
        LogSuccess "Server is powered ON. Running wait-for install-complete..."
                   [] ;;
        openshift.WaitForInstallComplete lib env (installer a)
      else
        LogWarn "Server power state is: %s" [ArgS powerState] ;;
        LogWarn "Skipping wait-for install-complete." [] ;;
        ret None
  end.

(** runInstall *)
Definition runInstall (a : EnhancedApp) : M goerror :=
  LogInfo
    "Starting OpenShift SNO Hub Installation with Enhanced iDRAC8 Management"
    [] ;;
  orFail (idrac.CheckConnectivity lib env (idrac a))
         "iDRAC connectivity check failed: %w" (
  r1 <- idrac.GetSystemInfo lib env (idrac a) ;;
  match r1 with
  | inl e => LogWarn "Failed to get system info: %v" [ArgE e]
  | inr _ => ret tt
  end ;;
  r2 <- idrac.GetSystemHealth lib env (idrac a) ;;
  match snd r2 with
  | Some e => LogWarn "Failed to get system health: %v" [ArgE e]
  | None => ret tt
  end ;;
  orFail (ssh.CheckSSHKey env (sshManager a))
         "failed to check SSH key: %w" (
  orFail (ssh.SetupSSHKey env (sshManager a))
         "failed to setup SSH key: %w" (
  orFail (openshift.ExtractInstaller lib env (installer a))
         "failed to extract installer: %w" (
  orFail (openshift.PrepareWorkDir lib env (installer a))
         "failed to prepare work directory: %w" (
  orFail (openshift.CreateAgentImage env (installer a))
         "failed to create agent image: %w" (
  let isoPath := openshift.GetISOFilePath lib (installer a) in
  orFail (ssh.CopyISOToRemote lib env (sshManager a) isoPath)
         "failed to copy ISO to remote: %w" (
  orFail (manageVirtualMediaBootProcess a (ISOURL (Remote (config a))))
         "failed to manage virtual media boot process: %w" (
  orFail (monitorInstallation a)
         "failed to monitor installation: %w" (
  e <- cleanup a false ;;
  match e with
  | Some err => LogWarn "Cleanup failed: %v" [ArgE err]
  | None => ret tt
  end ;;
  LogSuccess "OpenShift SNO Hub installation completed successfully!" [] ;;
  ret None))))))))).

End WithWorld.

(** *** The subcommands and their dispatch *)

Section Commands.

Variable lib : GoLib.
Variable env : Env.

(** Effects of the program that the trace does not record, taken as
    parameters: the decoder of the lifecycle controller reply, the HOME
    variable, Config.Save (yaml.Marshal and os.WriteFile) and
    fmt.Println. *)
Variable json_Unmarshal_LifecycleControllerInfo :
  string -> error + idrac.LifecycleControllerInfo.
Variable home : string.
Variable config_Save : Config -> string -> M goerror.
Variable fmt_Println : string -> M unit.

(** createConfig *)
Definition createConfig (a : EnhancedApp) : M goerror :=
  LogInfo "Creating configuration file..." [] ;;
  let defaultConfig := config.DefaultConfig home in
  let configFile := "idrac_config.yaml" in
  orFail (config_Save defaultConfig configFile)
         "failed to save config file: %w" (
  LogSuccess "Configuration file created at %s" [ArgS configFile] ;;
  LogWarn
    "Please edit the configuration file with your settings before running the script"
    [] ;;
  ret None).

(** getStatus *)
Definition getStatus (a : EnhancedApp) : M goerror :=
  LogInfo "Getting system status..." [] ;;
  p <- idrac.GetSystemPowerState lib env (idrac a) ;;
  let '(powerState, err) := p in
  match err with
  | Some e => ret (Some (Errorf "failed to get power state: %w" [ArgE e]))
  | None =>
      q <- idrac.GetSystemHealth lib env (idrac a) ;;
      let '(health, err) := q in
      match err with
      | Some e =>
          ret (Some (Errorf "failed to get system health: %w" [ArgE e]))
      | None =>
          LogInfo "System Status:" [] ;;
          LogInfo "  Power State: %s" [ArgS powerState] ;;
          LogInfo "  Health: %s" [ArgS health] ;;
          ret None
      end
  end.

(** getSystemInfo *)
Definition getSystemInfo (a : EnhancedApp) : M goerror :=
  LogInfo "Getting system information..." [] ;;
  r1 <- idrac.GetSystemInfo lib env (idrac a) ;;
  match r1 with
  | inl e => LogWarn "Failed to get system info: %v" [ArgE e]
  | inr _ => ret tt
  end ;;
  LogInfo "Getting iDRAC lifecycle controller information..." [] ;;
  r2 <- idrac.GetLifecycleControllerInfo
          lib env json_Unmarshal_LifecycleControllerInfo (idrac a) ;;
  match r2 with
  | inl e => LogWarn "Failed to get lifecycle controller info: %v" [ArgE e]
  | inr _ => ret tt
  end ;;
  ret None.

(** ejectMedia *)
Definition ejectMedia (a : EnhancedApp) : M goerror :=
  LogInfo "Ejecting virtual media..." [] ;;
  idrac.EjectVirtualMedia lib env (idrac a).

(** insertMedia *)
Definition insertMedia (a : EnhancedApp) (isoURL : string) : M goerror :=
  LogInfo "Inserting virtual media: %s" [ArgS isoURL] ;;
  idrac.InsertVirtualMedia lib env (idrac a) isoURL.

(** setBootCD *)
Definition setBootCD (a : EnhancedApp) : M goerror :=
  LogInfo "Setting boot device to CD..." [] ;;
  idrac.SetVirtualCDBoot lib env (idrac a).

(** setVirtualCDBootEnhanced *)
Definition setVirtualCDBootEnhanced (a : EnhancedApp) : M goerror :=
  LogInfo "Setting boot device to Virtual CD/DVD (Enhanced)..." [] ;;
  idrac.SetVirtualCDBootEnhanced lib env (idrac a).

(** getVirtualMediaInfo *)
Definition getVirtualMediaInfo (a : EnhancedApp) : M goerror :=
  LogInfo "Getting virtual media information..." [] ;;
  r <- idrac.GetVirtualMediaInfo lib env (idrac a) ;;
  match r with
  | inl e => ret (Some e)
  | inr _ => ret None
  end.

(** getLifecycleControllerInfo *)
Definition getLifecycleControllerInfo (a : EnhancedApp) : M goerror :=
  LogInfo "Getting iDRAC lifecycle controller information..." [] ;;
  r <- idrac.GetLifecycleControllerInfo
         lib env json_Unmarshal_LifecycleControllerInfo (idrac a) ;;
  match r with
  | inl e => ret (Some e)
  | inr _ => ret None
  end.

(** setBootHDD *)
Definition setBootHDD (a : EnhancedApp) : M goerror :=
  LogInfo "Setting boot device to HDD..." [] ;;
  idrac.SetHDDBoot lib env (idrac a).

(** restart *)
Definition restart (a : EnhancedApp) : M goerror :=
  LogInfo "Restarting system..." [] ;;
  idrac.RestartSystem lib env (idrac a).

Definition usageLines : list string :=
  ["Usage: openshift-sno-hub-installer [command]";
   EmptyString;
   "Commands:";
   "  config         - Create configuration file";
   "  power-on       - Power on the system via iDRAC";
   "  power-off      - Power off the system via iDRAC";
   "  status         - Get system power and health status";
   "  info           - Get system information";
   "  eject-media    - Eject virtual media";
   "  insert-media   - Insert virtual media (requires ISO URL)";
   "  set-boot-cd    - Set boot device to Virtual CD/DVD";
   "  set-boot-cd-enhanced - Set boot device to Virtual CD/DVD (Enhanced)";
   "  virtual-media-info - Get virtual media information";
   "  lifecycle-controller - Get iDRAC lifecycle controller information";
   "  manage-virtual-boot - Manage complete virtual media boot process (requires ISO URL)";
   "  set-boot-hdd   - Set boot device to HDD";
   "  restart        - Restart the system";
   "  cleanup        - Perform cleanup (optionally power off)";
   "  install        - Run full OpenShift SNO hub installation (default)"].

Fixpoint printAll (lines : list string) : M unit :=
  match lines with
  | [] => ret tt
  | line :: rest => fmt_Println line ;; printAll rest
  end.

(** showUsage *)
Definition showUsage (a : EnhancedApp) : M goerror :=
  printAll usageLines ;;
  ret None.

(** Run; [args] is os.Args, the program name first. *)
Definition Run (a : EnhancedApp) (args : list string) : M goerror :=
  match args with
  | [] | [_] => runInstall lib env a
  | _ :: command :: rest =>
      if String.eqb command "config" then createConfig a
      else if String.eqb command "power-on" then powerOn lib env a
      else if String.eqb command "power-off" then powerOff lib env a
      else if String.eqb command "status" then getStatus a
      else if String.eqb command "info" then getSystemInfo a
      else if String.eqb command "eject-media" then ejectMedia a
      else if String.eqb command "insert-media" then
        match rest with
        | [] => ret (Some (Errorf "please provide ISO URL as second argument"
                                  []))
        | isoURL :: _ => insertMedia a isoURL
        end
      else if String.eqb command "set-boot-cd" then setBootCD a
      else if String.eqb command "set-boot-cd-enhanced" then
        setVirtualCDBootEnhanced a
      else if String.eqb command "virtual-media-info" then
        getVirtualMediaInfo a
      else if String.eqb command "lifecycle-controller" then
        getLifecycleControllerInfo a
      else if String.eqb command "manage-virtual-boot" then
        match rest with
        | [] => ret (Some (Errorf "please provide ISO URL as second argument"
                                  []))
        | isoURL :: _ => manageVirtualMediaBootProcess lib env a isoURL
        end
      else if String.eqb command "set-boot-hdd" then setBootHDD a
      else if String.eqb command "restart" then restart a
      else if String.eqb command "cleanup" then
        let powerOff :=
          match rest with
          | [] => false
          | arg :: _ => String.eqb arg "poweroff"
          end in
        cleanup lib env a powerOff
      else if String.eqb command "install" then runInstall lib env a
      else if String.eqb command "help" then showUsage a
      else showUsage a
  end.

End Commands.

End app.

(* ------------------------------------------------------------------ *)
(** ** The web cache server (package main of go-webcache)              *)
(* ------------------------------------------------------------------ *)

Module webcache.

(** An open file: what reading it to the end and what Stat give. *)
Record File := {
  Contents : error + string;
  ModTime : error + Z
}.

(** The file system at one moment: os.Open. *)
Definition FS := string -> error + File.

Definition Header := list (string * string).

(** Header.Get: the first value stored under the key, or the empty
    string. *)
Fixpoint Get (hd : Header) (key : string) : string :=
  match hd with
  | [] => EmptyString
  | (k, v) :: rest => if String.eqb k key then v else Get rest key
  end.

(** Header.Set *)
Fixpoint Set_ (hd : Header) (key value : string) : Header :=
  match hd with
  | [] => [(key, value)]
  | (k, v) :: rest =>
      if String.eqb k key then (key, value) :: rest
      else (k, v) :: Set_ rest key value
  end.

Record HttpRequest := {
  ReqMethod : string;
  ReqPath : string;
  ReqHeader : Header
}.

Record Reply := {
  Status : Z;
  ReplyHeader : Header;
  ReplyBody : string
}.

(** What the server does to the file system while answering. *)
Inductive FsEvent :=
| Opened (path : string).

(** Standard-library functions used by the server. *)
Record HttpLib := {
  md5_Sum : string -> string;
  time_HTTPFormat : Z -> string;
  strings_TrimSpace : string -> string;
  http_Error : string -> Z -> Reply;
  http_NotFound : HttpRequest -> Reply;
  http_ServeContent : Header -> HttpRequest -> string -> Z -> File -> Reply
}.

Definition StatusNotModified : Z := 304.
Definition StatusNotFound : Z := 404.

Definition servedPath : string := "/agent.x86_64.iso".

Definition hexDigit (n : nat) : ascii :=
  match n with
  | 0 => "0" | 1 => "1" | 2 => "2" | 3 => "3" | 4 => "4" | 5 => "5"
  | 6 => "6" | 7 => "7" | 8 => "8" | 9 => "9" | 10 => "a" | 11 => "b"
  | 12 => "c" | 13 => "d" | 14 => "e" | _ => "f"
  end%char.

(** The verb [%x] applied to a byte slice. *)
Fixpoint hex (bytes : string) : string :=
  match bytes with
  | EmptyString => EmptyString
  | String b rest =>
      let n := nat_of_ascii b in
      String (hexDigit (n / 16)) (String (hexDigit (n mod 16)) (hex rest))
  end.

Definition quote : string := String (ascii_of_nat 34) EmptyString.

Section WithLib.

Variable lib : HttpLib.

(** calculateETag *)
Definition calculateETag (fs : FS) (path : string) : error + (string * Z) :=
  match fs path with
  | inl err => inl err
  | inr f =>
      match Contents f with
      | inl err => inl err
      | inr data =>
          match ModTime f with
          | inl err => inl err
          | inr modTime =>
              inr ((quote ++ hex (md5_Sum lib data) ++ quote)%string, modTime)
          end
      end
  end.

(** The handler registered for [servedPath]; [etag], [modTime] and
    [inputPath] are the variables of main captured by the closure. *)
Definition handler (inputPath etag : string) (modTime : Z)
           (fs : FS) (r : HttpRequest) : Reply * list FsEvent :=
  let serveFile :=
    match fs inputPath with
    | inl _ =>
        (http_Error lib "File not found" StatusNotFound, [Opened inputPath])
    | inr file =>
        let hd := Set_ [] "Content-Type" "application/octet-stream" in
        let hd := Set_ hd "Content-Disposition"
                       "attachment; filename=agent.x86_64.iso" in
        let hd := Set_ hd "Cache-Control" "public, max-age=86400" in
        let hd := Set_ hd "ETag" etag in
        let hd := Set_ hd "Last-Modified" (time_HTTPFormat lib modTime) in
        (http_ServeContent lib hd r "agent.x86_64.iso" modTime file,
         [Opened inputPath])
    end in
  let match_ := Get (ReqHeader r) "If-None-Match" in
  if negb (String.eqb match_ EmptyString) then
    if String.eqb match_ etag then
      ({| Status := StatusNotModified; ReplyHeader := [];
          ReplyBody := EmptyString |}, [])
    else serveFile
  else serveFile.

(** reader.ReadString(10): the line with its delimiter, or an error when
    the input ends first. *)
Fixpoint ReadString (input : string) : error + string :=
  match input with
  | EmptyString => inl (Foreign "EOF")
  | String c rest =>
      if Ascii.eqb c "010"%char then inr (String c EmptyString)
      else match ReadString rest with
           | inl e => inl e
           | inr line => inr (String c line)
           end
  end.

(** DefaultServeMux with the one registered pattern. *)
Definition dispatch (inputPath etag : string) (modTime : Z)
           (fs : FS) (r : HttpRequest) : Reply * list FsEvent :=
  if String.eqb (ReqPath r) servedPath then handler inputPath etag modTime fs r
  else (http_NotFound lib r, []).

(** main, run against the file system [fs0] found at startup and then
    against a sequence of requests, each with the file system of its
    moment.  log.Fatalf is the [inl] result. *)
Definition main (stdin : string) (fs0 : FS)
           (requests : list (FS * HttpRequest))
  : error + list (Reply * list FsEvent) :=
  match ReadString stdin with
  | inl err => inl (Errorf "Failed to read input: %v" [ArgE err])
  | inr line =>
      let inputPath := strings_TrimSpace lib line in
      match calculateETag fs0 inputPath with
      | inl err =>
          inl (Errorf "Failed to calculate ETag for file %s: %v"
                      [ArgS inputPath; ArgE err])
      | inr (etag, modTime) =>
          inr (map (fun q => dispatch inputPath etag modTime (fst q) (snd q))
                   requests)
      end
  end.

End WithLib.

End webcache.

(* ------------------------------------------------------------------ *)
(** ** A concrete world, used to run the model on examples             *)
(* ------------------------------------------------------------------ *)

Module Sample.

(** strings.Fields restricted to the ASCII space. *)
Fixpoint fieldsAux (s : string) (cur : string) : list string :=
  match s with
  | EmptyString =>
      match cur with EmptyString => [] | _ => [cur] end
  | String c s' =>
      if Ascii.eqb c " "%char then
        match cur with
        | EmptyString => fieldsAux s' EmptyString
        | _ => cur :: fieldsAux s' EmptyString
        end
      else fieldsAux s' (cur ++ String c EmptyString)%string
  end.

(** The last slash-separated element of a path. *)
Fixpoint baseAux (s : string) (cur : string) : string :=
  match s with
  | EmptyString => cur
  | String c s' =>
      if Ascii.eqb c "/"%char then baseAux s' EmptyString
      else baseAux s' (cur ++ String c EmptyString)%string
  end.

Definition blankSystemInfo (power : string) : SystemInfo :=
  {| Manufacturer := "Dell Inc."; Model := "PowerEdge R640";
     SerialNumber := "ABC123456"; BiosVersion := "2.15.0";
     PowerState := power; Health := "OK" |}.

(** A toy decoder: the payload names the power state in clear. *)
Definition decodeSystemInfo (body : string) : error + SystemInfo :=
  if GoStrings.Contains body "PowerState=On" then inr (blankSystemInfo "On")
  else if GoStrings.Contains body "PowerState=Off"
       then inr (blankSystemInfo "Off")
       else inl (Foreign "unexpected end of JSON input").

Definition decodeVirtualMediaInfo (body : string) : error + VirtualMediaInfo :=
  inr {| ConnectedVia := "URI"; VMImage := "http://192.168.1.21:8080/OSs/agent.x86_64.iso";
         ImageName := "agent.x86_64.iso";
         Inserted := GoStrings.Contains body "Inserted=true";
         MediaTypes := ["CD"; "DVD"] |}.

Definition lib : GoLib :=
  {| http_NewRequest := fun _ _ => None;
     json_Unmarshal_SystemInfo := decodeSystemInfo;
     json_Unmarshal_VirtualMediaInfo := decodeVirtualMediaInfo;
     filepath_Join := String.concat "/";
     filepath_Base := fun p => baseAux p EmptyString;
     strings_Fields := fun s => fieldsAux s EmptyString |}.

(** The values of config.DefaultConfig, with a password and a home. *)
Definition cfg : Config :=
  {| IDRAC := {| IP := "192.168.1.228"; Username := "root";
                 Password := "calvin"; VerifySSL := false; Timeout := 30 |};
     OpenShift := {| Version := "4.16.45"; ClusterName := "sno-hub";
                     RegistryAuthFile := "./config.json" |};
     Remote := {| User := "rock"; Host := "192.168.1.21";
                  Path := "/apps/webcache/OSs/";
                  ISOURL := "http://192.168.1.21:8080/OSs/agent.x86_64.iso" |};
     Paths := {| WorkDir := "./workdir"; SourceDir := "./abi-master-0";
                 SSHKeyPath := "/root/.ssh/id_ed25519.pub";
                 InstallerPath := "./openshift-install" |} |}.

Definition theApp : app.EnhancedApp := app.NewEnhancedApp cfg.

Definition okBody (power : string) : string :=
  ("System.Embedded.1 PowerState=" ++ power ++ " Inserted=true")%string.

Definition respond (code : Z) (power : string) : error + Response :=
  inr {| StatusCode := code; RespBody := ReadOk (okBody power) |}.

(** A world in which everything works and the server is powered on. *)
Definition happy : Env :=
  {| http_Do := fun _ _ => respond 200 "On";
     ctx_Err := fun _ => None;
     os_Stat := fun _ _ => StatOk;
     os_Call := fun _ _ => None;
     exec_CombinedOutput := fun _ _ =>
       ("Pull From: quay.io/openshift-release-dev/ocp-release@sha256:6a65",
        None) |}.


(** Everything works, but no file of the given name exists. *)
Definition without (missing : string) : Env :=
  {| http_Do := http_Do happy;
     ctx_Err := ctx_Err happy;
     os_Stat := fun _ p => if String.eqb p missing then StatNotExist else StatOk;
     os_Call := os_Call happy;
     exec_CombinedOutput := exec_CombinedOutput happy |}.


(** A controller whose firmware knows one boot target only. *)
Definition acceptsOnly (target : string) : Env :=
  {| http_Do := fun _ req =>
       match Payload req with
       | BodySystemBoot b =>
           if String.eqb (BootSourceOverrideTarget (Boot b)) target
           then respond 200 "On" else respond 400 "On"
       | _ => respond 200 "On"
       end;
     ctx_Err := ctx_Err happy;
     os_Stat := os_Stat happy;
     os_Call := os_Call happy;
     exec_CombinedOutput := exec_CombinedOutput happy |}.

(** The controller refuses to insert the image. *)
Definition refusesInsert : Env :=
  {| http_Do := fun _ req =>
       match Payload req with
       | BodyVirtualMedia _ => respond 500 "On"
       | _ => respond 200 "On"
       end;
     ctx_Err := ctx_Err happy;
     os_Stat := os_Stat happy;
     os_Call := os_Call happy;
     exec_CombinedOutput := exec_CombinedOutput happy |}.

End Sample.

(* ------------------------------------------------------------------ *)
(** ** A concrete web cache, used to run the server on examples        *)
(* ------------------------------------------------------------------ *)

Module SampleWeb.

Import webcache.

(** A stand-in for the digest: one byte, the sum of the bytes. *)
Fixpoint byteSum (data : string) : nat :=
  match data with
  | EmptyString => 0
  | String b rest => (nat_of_ascii b + byteSum rest) mod 256
  end.

Definition toyDigest (data : string) : string :=
  String (ascii_of_nat (byteSum data)) EmptyString.

(** Dropping the final line feed is all the trimming the examples need. *)
Fixpoint dropLineFeed (s : string) : string :=
  match s with
  | EmptyString => EmptyString
  | String c rest =>
      if Ascii.eqb c "010"%char then dropLineFeed rest
      else String c (dropLineFeed rest)
  end.

(** A ServeContent that always answers 200 with the whole file and the
    headers it was given. *)
Definition serveWhole (hd : Header) (r : HttpRequest) (name : string)
           (modTime : Z) (f : File) : Reply :=
  {| Status := 200; ReplyHeader := hd;
     ReplyBody := match Contents f with
                  | inr data => data
                  | inl _ => EmptyString
                  end |}.

Definition lib : HttpLib :=
  {| md5_Sum := toyDigest;
     time_HTTPFormat := fun t =>
       if (t =? 0)%Z then "Thu, 01 Jan 1970 00:00:00 GMT"
       else "Thu, 01 Jan 1970 00:00:01 GMT";
     strings_TrimSpace := dropLineFeed;
     http_Error := fun msg code =>
       {| Status := code;
          ReplyHeader := [("Content-Type", "text/plain; charset=utf-8")];
          ReplyBody := msg |};
     http_NotFound := fun _ =>
       {| Status := 404;
          ReplyHeader := [("Content-Type", "text/plain; charset=utf-8")];
          ReplyBody := "404 page not found" |};
     http_ServeContent := serveWhole |}.

Definition isoPath : string := "/srv/agent.x86_64.iso".

(** A file system holding one file. *)
Definition holding (data : string) (modTime : Z) : FS :=
  fun path =>
    if String.eqb path isoPath
    then inr {| Contents := inr data; ModTime := inr modTime |}
    else inl (Foreign "no such file or directory").

Definition atStartup : FS := holding "first image" 0.
Definition rebuilt : FS := holding "second image!" 1.

(** The ETag of the file found at startup: the quoted hex digest. *)
Definition startupETag : string :=
  (quote ++ "4b" ++ quote)%string.

Definition conditional (etag : string) : HttpRequest :=
  {| ReqMethod := "GET"; ReqPath := servedPath;
     ReqHeader := [("If-None-Match", etag)] |}.

Definition plain : HttpRequest :=
  {| ReqMethod := "GET"; ReqPath := servedPath; ReqHeader := [] |}.

Definition typedPath : string := String.append isoPath (String "010"%char EmptyString).

End SampleWeb.

(* ------------------------------------------------------------------ *)
(** ** Vocabulary for statements about runs                            *)
(* ------------------------------------------------------------------ *)

(** [emits_only Q m]: whatever the history, every event that [m] adds
    satisfies [Q]. *)
Definition emits_only {A} (Q : Event -> Prop) (m : M A) : Prop :=
  forall h, Forall Q (events (m h)).

(** [never_panics m]: whatever the history, [m] returns a value. *)
Definition never_panics {A} (m : M A) : Prop :=
  forall h, exists a, outcome (m h) = Val a.

Definition isMethod (method : string) (e : Event) : bool :=
  match e with
  | EvHTTP req _ => String.eqb (Method req) method
  | _ => false
  end.

Definition ok200 (res : error + Response) : bool :=
  match res with
  | inr resp => (StatusCode resp =? StatusOK)%Z
  | inl _ => false
  end.

(** The requests of a given method in a trace, each with whether it was
    answered 200. *)
Fixpoint requestsBy (method : string) (evs : list Event)
  : list (Request * bool) :=
  match evs with
  | [] => []
  | EvHTTP req res :: rest =>
      if String.eqb (Method req) method
      then (req, ok200 res) :: requestsBy method rest
      else requestsBy method rest
  | _ :: rest => requestsBy method rest
  end.

(** The PATCH request that sets the one-time boot target. *)
Definition bootRequest (c : idrac.Client) (target : string) : Request :=
  {| Method := "PATCH";
     URL := (idrac.baseURL c ++ idrac.SystemPath)%string;
     AuthUser := Username (idrac.config c);
     AuthPass := Password (idrac.config c);
     Payload := idrac.bootOnce target |}.

Definition patchURL (c : idrac.Client) : string :=
  (idrac.baseURL c ++ idrac.SystemPath)%string.

(** The error returned when no boot target was accepted. *)
Definition allOptionsFailed : error :=
  Errorf
    "failed to set boot device to Virtual CD/DVD with any supported option" [].

Definition failedAttempt (c : idrac.Client) (t : string) : Request * bool :=
  (bootRequest c t, false).

(** The power state a run has read from the controller: each successful
    GetSystemPowerState logs it under this format. *)
Definition observation (e : Event) : option string :=
  match e with
  | EvLog LInfo format [ArgS s] =>
      if String.eqb format "System power state: %s" then Some s else None
  | _ => None
  end.

Fixpoint observations (evs : list Event) : list string :=
  match evs with
  | [] => []
  | e :: rest =>
      match observation e with
      | Some s => s :: observations rest
      | None => observations rest
      end
  end.

Definition isSleep (e : Event) : bool :=
  match e with EvSleep _ => true | _ => false end.

Definition isCtxCheck (e : Event) : bool :=
  match e with EvCtx _ => true | _ => false end.

(** Loop iterations started (each starts with the select on ctx.Done)
    and completed (each ends with the sleep before [attempt++]). *)
Definition iterations (evs : list Event) : nat :=
  List.length (filter isCtxCheck evs).

Definition completed (evs : list Event) : nat :=
  List.length (filter isSleep evs).



(** What a run of the polling loop for [expected] looks like. *)
Definition polls_until (expected : string) (timeout : error) (budget : nat)
           (run : result goerror * list Event) : Prop :=
  let evs := events run in
  let obs := observations evs in
  iterations evs <= budget /\
  List.length obs <= iterations evs /\
  Forall (fun e => isSleep e = true -> e = EvSleep 10) evs /\
  ((outcome run = Val None /\
    (exists before, obs = before ++ [expected] /\ ~ In expected before) /\
    completed evs < budget)
   \/
   (outcome run = Val (Some timeout) /\ ~ In expected obs /\
    completed evs = budget /\ iterations evs = budget)
   \/
   (exists descr, outcome run = Val (Some (Foreign descr)) /\
    ~ In expected obs /\ completed evs < budget)).


(** Events that are neither a sleep nor a look at the context. *)
Definition quietEvent (e : Event) : Prop :=
  isSleep e = false /\ isCtxCheck e = false.

(** All requests sent in a trace, in order. *)
Fixpoint httpRequests (evs : list Event) : list Request :=
  match evs with
  | [] => []
  | EvHTTP req _ :: rest => req :: httpRequests rest
  | _ :: rest => httpRequests rest
  end.

(** The GET that reads the system resource (and with it the power
    state). *)
Definition statusQuery (c : idrac.Client) : Request :=
  {| Method := "GET";
     URL := (idrac.baseURL c ++ idrac.SystemPath)%string;
     AuthUser := Username (idrac.config c);
     AuthPass := Password (idrac.config c);
     Payload := BodyNil |}.

(** A POST of a ResetRequest, whatever its type. *)
Definition isResetCommand (e : Event) : bool :=
  match e with
  | EvHTTP req _ =>
      match Payload req with BodyReset _ => true | _ => false end
  | _ => false
  end.



(** The warning that ManageVirtualMediaBootProcess logs when the eject
    step has failed. *)
Definition ejectWarning (e1 : goerror) : list Event :=
  match e1 with
  | Some e =>
      [EvLog LWarn "Failed to eject existing virtual media: %v" [ArgE e]]
  | None => []
  end.

Definition manageIntro : list Event :=
  [EvLog LInfo "Starting enhanced virtual media boot management process..." [];
   EvLog LInfo "Step 1: Ejecting existing virtual media..." []].

Definition manageStep2 : list Event :=
  [EvSleep 10; EvLog LInfo "Step 2: Inserting new virtual media..." []].

(** Neither a PATCH request nor a reset command. *)
Definition isBootOrReset (e : Event) : bool :=
  isMethod "PATCH" e || isResetCommand e.


(** [satisfies R m]: whatever the history, the outcome of [m] and the
    events it adds are related by [R]. *)
Definition satisfies (R : result goerror -> list Event -> Prop)
           (m : M goerror) : Prop :=
  forall h, R (outcome (m h)) (events (m h)).





(** An event of the cleanup step: its first log line, or the PATCH that
    restores the HDD boot target. *)
Definition isCleanup (e : Event) : bool :=
  match e with
  | EvLog LInfo format [] => String.eqb format "Performing cleanup..."
  | EvHTTP req _ =>
      match Payload req with
      | BodySystemBoot b =>
          String.eqb (BootSourceOverrideTarget (Boot b)) "Hdd"
      | _ => false
      end
  | _ => false
  end.

(** A run in which cleanup shows only when the run succeeded. *)
Definition cleanup_only_on_success (r : result goerror) (evs : list Event)
  : Prop :=
  r = Val None \/ Forall (fun e => isCleanup e = false) evs.


(** An event of the steps that follow the transfer of the image: their
    first log lines, or any request other than a GET (eject, insert,
    boot target, reset). *)
Definition isLaterStep (e : Event) : bool :=
  match e with
  | EvLog LInfo format [] =>
      String.eqb format "Managing virtual media boot process..."
      || String.eqb format "Monitoring installation progress..."
      || String.eqb format "Performing cleanup..."
  | EvHTTP req _ => negb (String.eqb (Method req) "GET")
  | _ => false
  end.

(** The first log line of CopyISOToRemote and the warning it writes when
    the image is not there. *)
Definition transferStarted : Event :=
  EvLog LInfo "Copying ISO to remote host..." [].

Definition isoWarning (isoPath : string) : Event :=
  EvLog LWarn "ISO file not found: %s" [ArgS isoPath].

Definition isTransferStart (e : Event) : bool :=
  match e with
  | EvLog LInfo format [] => String.eqb format "Copying ISO to remote host..."
  | _ => false
  end.

(** The error of runInstall when the image is missing. *)
Definition isoMissing (isoPath : string) : error :=
  Errorf "failed to copy ISO to remote: %w"
         [ArgE (Errorf "ISO file not found: %s" [ArgS isoPath])].






(** C4 as the code has it: with the image missing the run fails, no later
    step leaves an event, and once the transfer step was reached the
    error is [isoMissing] and the warning was logged. *)
Definition transfer_is_fatal (isoPath : string) (r : result goerror)
           (evs : list Event) : Prop :=
  r <> Val None /\
  Forall (fun e => isLaterStep e = false) evs /\
  (In transferStarted evs ->
   r = Val (Some (isoMissing isoPath)) /\ In (isoWarning isoPath) evs).


(** Events of the steps that come before the transfer of the image. *)
Definition beforeTransfer (e : Event) : Prop :=
  (isLaterStep e || isTransferStart e) = false.


(** The reply of the web cache to a matching conditional request. *)
Definition notModified : webcache.Reply :=
  {| webcache.Status := webcache.StatusNotModified;
     webcache.ReplyHeader := [];
     webcache.ReplyBody := EmptyString |}.

(** The documented behaviour of http.ServeContent that matters here: a
    200 reply carries the ETag and Last-Modified headers that were set
    on the response before the call. *)
Definition keeps_validators (lib : webcache.HttpLib) : Prop :=
  forall hd r name modTime file key,
    webcache.Status (webcache.http_ServeContent lib hd r name modTime file)
    = 200%Z ->
    In key ["ETag"; "Last-Modified"] ->
    webcache.Get
      (webcache.ReplyHeader
         (webcache.http_ServeContent lib hd r name modTime file)) key
    = webcache.Get hd key.

(** The ETag format: the quoted hex digest of the content. *)
Definition etagOf (lib : webcache.HttpLib) (data : string) : string :=
  (webcache.quote ++ webcache.hex (webcache.md5_Sum lib data)
     ++ webcache.quote)%string.

(* ------------------------------------------------------------------ *)
(** ** Vocabulary for the further properties                           *)
(* ------------------------------------------------------------------ *)

(** The external commands run in a trace, each with its error. *)
Fixpoint commands (evs : list Event) : list (list string * goerror) :=
  match evs with
  | [] => []
  | EvExec argv _ err :: rest => (argv, err) :: commands rest
  | _ :: rest => commands rest
  end.

(** The requests of a trace, each with the status code of its answer
    ([None] when the transport failed). *)
Fixpoint answers (evs : list Event) : list (Request * option Z) :=
  match evs with
  | [] => []
  | EvHTTP req res :: rest =>
      (req, match res with
            | inr resp => Some (StatusCode resp)
            | inl _ => None
            end) :: answers rest
  | _ :: rest => answers rest
  end.

(** The command line of ssh-keygen in generateSSHKey. *)
Definition keygenArgs (privatePath : string) : list string :=
  ["ssh-keygen"; "-t"; "ed25519"; "-f"; privatePath; "-N"; EmptyString; "-q"].

(** A line of the release information from which getReleaseDigest takes
    the digest: it mentions "Pull From:" and has at least three fields,
    the third being the digest. *)
Definition yieldsDigest (lib : GoLib) (line digest : string) : Prop :=
  GoStrings.Contains line "Pull From:" = true /\
  nth_error (strings_Fields lib line) 2 = Some digest.

Definition yieldsNothing (lib : GoLib) (line : string) : Prop :=
  GoStrings.Contains line "Pull From:" = false \/
  List.length (strings_Fields lib line) < 3.

(** The command line of [oc adm release info] in getReleaseDigest. *)
Definition releaseInfoArgs (i : openshift.Installer) : list string :=
  ["oc"; "adm"; "release"; "info";
   ("quay.io/openshift-release-dev/ocp-release:"
      ++ Version (OpenShift (openshift.config i)) ++ "-x86_64")%string;
   "--registry-config"; RegistryAuthFile (OpenShift (openshift.config i))].

Definition digestNotFound : error :=
  Errorf "could not find release digest in output" [].


(** The request that makeRequest sends. *)
Definition requestOf (c : idrac.Client) (method endpoint : string)
           (body : Body) : Request :=
  {| Method := method;
     URL := (idrac.baseURL c ++ endpoint)%string;
     AuthUser := Username (idrac.config c);
     AuthPass := Password (idrac.config c);
     Payload := body |}.

(** A command of the client succeeds exactly when its single request
    [req] is answered with a status among [accepted]. *)
Definition succeeds_iff_answered (req : Request) (accepted : list Z)
           (run : result goerror * list Event) : Prop :=
  outcome run = Val None <->
  exists code, answers (events run) = [(req, Some code)] /\ In code accepted.

(** The reset types of the reset commands sent in a trace. *)
Fixpoint resetTypes (evs : list Event) : list string :=
  match evs with
  | [] => []
  | EvHTTP req _ :: rest =>
      match Payload req with
      | BodyReset r => ResetType r :: resetTypes rest
      | _ => resetTypes rest
      end
  | _ :: rest => resetTypes rest
  end.

(** What PowerOnSystem and PowerOffSystem do to reach [target]: at most
    one reset command, of type [resetType], and a nil result only when
    the last power state read is [target]. *)
Definition reaches_state (target resetType : string)
           (run : result goerror * list Event) : Prop :=
  (resetTypes (events run) = [] \/ resetTypes (events run) = [resetType]) /\
  (outcome run = Val None ->
   exists before, observations (events run) = before ++ [target]).

(** The requests among [reqs] that http.NewRequest accepts, and which
    makeRequest therefore sends. *)
Definition sendable (lib : GoLib) (reqs : list Request) : list Request :=
  filter (fun r => match http_NewRequest lib (Method r) (URL r) with
                   | None => true
                   | Some _ => false
                   end) reqs.

Definition ejectRequest (c : idrac.Client) : Request :=
  requestOf c "POST" idrac.EjectPath BodyEmptyMap.

(** What cleanup does: it returns nil, it tries to eject the image and
    then to restore the boot from disk, whatever the first answer, it
    sends nothing else unless asked to power off, and the only reset
    command it may send is then a ForceOff. *)
Definition cleanup_contract (lib : GoLib) (c : idrac.Client) (powerOff : bool)
           (run : result goerror * list Event) : Prop :=
  outcome run = Val None /\
  (exists rest,
      httpRequests (events run) =
        sendable lib [ejectRequest c; bootRequest c "Hdd"] ++ rest /\
      (powerOff = false -> rest = [])) /\
  (resetTypes (events run) = [] \/
   powerOff = true /\ resetTypes (events run) = ["ForceOff"]).

(** An external command, a change made through the os package, or a
    reset command sent to the controller. *)
Definition actsOutside (e : Event) : bool :=
  match e with
  | EvExec _ _ _ => true
  | EvOs _ _ => true
  | _ => isResetCommand e
  end.

(** The calls of os.RemoveAll, os.MkdirAll, os.Chmod and os.Setenv in a
    trace, each with its error. *)
Fixpoint oscalls (evs : list Event) : list (OsCall * goerror) :=
  match evs with
  | [] => []
  | EvOs call err :: rest => (call, err) :: oscalls rest
  | _ :: rest => oscalls rest
  end.










(** What runInstall may do to the machine it runs on: remove and create
    the work directory, make the installer executable, set KUBECONFIG,
    and run one of six programs. *)
Definition localAction (lib : GoLib) (cfg : Config) (e : Event) : Prop :=
  match e with
  | EvOs (RemoveAll path) _ => path = WorkDir (Paths cfg)
  | EvOs (MkdirAll path perm) _ =>
      path = WorkDir (Paths cfg) /\ perm = 493%Z
  | EvOs (Chmod path perm) _ =>
      path = InstallerPath (Paths cfg) /\ perm = 493%Z
  | EvOs (Setenv key value) _ =>
      key = "KUBECONFIG" /\
      value = filepath_Join lib [WorkDir (Paths cfg); "auth"; "kubeconfig"]
  | EvExec argv _ _ =>
      exists rest,
        In (hd EmptyString argv)
           ["ssh-keygen"; "sshpass"; "oc"; "cp"; "scp";
            InstallerPath (Paths cfg)] /\
        argv = hd EmptyString argv :: rest
  | _ => True
  end.

(** A run that touches nothing but the controller, and does not reset
    the server. *)
Definition confined (run : result goerror * list Event) : Prop :=
  commands (events run) = [] /\ oscalls (events run) = [] /\
  resetTypes (events run) = [].

(** A run that changes nothing: every request it sends is a GET. *)
Definition only_reads (run : result goerror * list Event) : Prop :=
  confined run /\
  Forall (fun req => Method req = "GET") (httpRequests (events run)).

(** A run that leaves the local machine alone. *)
Definition remote_only (run : result goerror * list Event) : Prop :=
  commands (events run) = [] /\ oscalls (events run) = [].

Definition readingCommands : list string :=
  ["status"; "info"; "virtual-media-info"; "lifecycle-controller"].

Definition mediaCommands : list string :=
  ["eject-media"; "insert-media"; "set-boot-cd"; "set-boot-cd-enhanced";
   "set-boot-hdd"].

Definition powerCommands : list string :=
  ["power-on"; "power-off"; "restart"; "manage-virtual-boot"; "cleanup"].

Definition isRead (e : Event) : bool :=
  match e with
  | EvHTTP req _ => String.eqb (Method req) "GET"
  | _ => true
  end.

Definition isLocal (e : Event) : bool :=
  match e with
  | EvExec _ _ _ => true
  | EvOs _ _ => true
  | _ => false
  end.

(** The requests of a trace, each with what came back. *)
Fixpoint exchanges (evs : list Event) : list (Request * (error + Response)) :=
  match evs with
  | [] => []
  | EvHTTP req res :: rest => (req, res) :: exchanges rest
  | _ :: rest => exchanges rest
  end.

(** The run sent the one request [req] and was answered 200 with a
    body that could be read. *)
Definition answered200 (req : Request) (body : string) (evs : list Event)
  : Prop :=
  exists resp,
    exchanges evs = [(req, inr resp)] /\
    StatusCode resp = StatusOK /\ RespBody resp = ReadOk body.

(** A reading call of the client returns a value exactly when its one
    GET is answered 200 with a readable body that [decode] accepts, and
    the value is the decoded one. *)
Definition reads_what_was_sent {A} (req : Request)
           (decode : string -> error + A)
           (run : result (error + A) * list Event) : Prop :=
  forall a,
    outcome run = Val (inr a) <->
    exists body, answered200 req body (events run) /\ decode body = inr a.

(** GetSystemPowerState and GetSystemHealth return one field of the
    decoded reply, and the empty string with every error. *)
Definition reads_field (lib : GoLib) (req : Request)
           (field : SystemInfo -> string)
           (run : result (string * goerror) * list Event) : Prop :=
  (forall s,
      outcome run = Val (s, None) <->
      exists body info,
        answered200 req body (events run) /\
        json_Unmarshal_SystemInfo lib body = inr info /\ s = field info) /\
  (forall s err, outcome run = Val (s, Some err) -> s = EmptyString).

(** The digest of the file at [path], when it can be opened and read. *)
Definition digestAt (lib : webcache.HttpLib) (fs : webcache.FS)
           (path : string) : option string :=
  match fs path with
  | inr f =>
      match webcache.Contents f with
      | inr data => Some (webcache.md5_Sum lib data)
      | inl _ => None
      end
  | inl _ => None
  end.

Definition isLowerHex (c : ascii) : bool :=
  let n := nat_of_ascii c in
  Nat.leb 48 n && Nat.leb n 57 || Nat.leb 97 n && Nat.leb n 102.

(** An entity tag as calculateETag builds it from a digest: a double
    quote, two lower-case hexadecimal digits for each byte, a double
    quote. *)
Definition quoted_hex_of (digest etag : string) : Prop :=
  exists digits,
    etag = (webcache.quote ++ digits ++ webcache.quote)%string /\
    String.length digits = 2 * String.length digest /\
    forallb isLowerHex (list_ascii_of_string digits) = true.




(** The calls of os.Stat in a trace. *)
Fixpoint stats (evs : list Event) : list (string * StatResult) :=
  match evs with
  | [] => []
  | EvStat path res :: rest => (path, res) :: stats rest
  | _ :: rest => stats rest
  end.


(** How PrepareWorkDir treats the work directory [wd]: it looks at it
    first; it removes it unless the look reported it missing, then
    creates it with mode 0755; and when the removal or the creation
    fails it stops there, having looked at no other file and run no
    command. *)
Definition recreates_workdir (wd : string)
           (run : result goerror * list Event) : Prop :=
  exists seen rest,
    stats (events run) = (wd, seen) :: rest /\
    match oscalls (events run) with
    | [(MkdirAll path perm, err)] =>
        IsNotExist seen = true /\ path = wd /\ perm = 493%Z /\
        (err <> None ->
         rest = [] /\ commands (events run) = [] /\ outcome run <> Val None)
    | [(RemoveAll path, Some _)] =>
        IsNotExist seen = false /\ path = wd /\
        rest = [] /\ commands (events run) = [] /\ outcome run <> Val None
    | [(RemoveAll path, None); (MkdirAll path' perm, err)] =>
        IsNotExist seen = false /\ path = wd /\ path' = wd /\
        perm = 493%Z /\
        (err <> None ->
         rest = [] /\ commands (events run) = [] /\ outcome run <> Val None)
    | _ => False
    end.

Definition isOsCall (e : Event) : bool :=
  match e with
  | EvOs _ _ => true
  | _ => false
  end.



(* ================================================================== *)
(** * Reasoning about runs                                             *)
(* ================================================================== *)

Section TraceLogic.

Context {A B : Type}.

Lemma bind_val (m : M A) (f : A -> M B) h a e1 :
  m h = (Val a, e1) ->
  bind m f h = (outcome (f a (h ++ e1)), e1 ++ events (f a (h ++ e1))).
Proof.
  intros E. unfold bind, outcome, events. rewrite E.
  destruct (f a (h ++ e1)); reflexivity.
Qed.

Lemma bind_panic (m : M A) (f : A -> M B) h msg e1 :
  m h = (Panic msg, e1) -> bind m f h = (Panic msg, e1).
Proof. intros E. unfold bind. rewrite E. reflexivity. Qed.

End TraceLogic.

Arguments bind_val {A B} m f {h a e1} _.
Arguments bind_panic {A B} m f {h msg e1} _.

Section EmitsOnly.

Variable Q : Event -> Prop.

Lemma emits_ret {A} (a : A) : emits_only Q (ret a).
Proof. intros h. constructor. Qed.

Lemma emits_panic {A} msg : emits_only Q (@panic A msg).
Proof. intros h. constructor. Qed.

Lemma emits_bind {A B} (m : M A) (f : A -> M B) :
  emits_only Q m -> (forall a, emits_only Q (f a)) -> emits_only Q (bind m f).
Proof.
  intros Hm Hf h. specialize (Hm h).
  destruct (m h) as [[a | msg] e1] eqn:E.
  - rewrite (bind_val m f E). cbn. apply Forall_app. split; [exact Hm | apply Hf].
  - rewrite (bind_panic m f E). exact Hm.
Qed.

Lemma emits_emit e : Q e -> emits_only Q (emit e).
Proof. intros H h. cbn. auto. Qed.

Lemma emits_httpDo env req :
  (forall res, Q (EvHTTP req res)) -> emits_only Q (httpDo env req).
Proof. intros H h. cbn. auto. Qed.

Lemma emits_ctxDone env :
  (forall res, Q (EvCtx res)) -> emits_only Q (ctxDone env).
Proof. intros H h. cbn. auto. Qed.

Lemma emits_osStat env path :
  (forall res, Q (EvStat path res)) -> emits_only Q (osStat env path).
Proof. intros H h. cbn. auto. Qed.

Lemma emits_osCall env call :
  (forall res, Q (EvOs call res)) -> emits_only Q (osCall env call).
Proof. intros H h. cbn. auto. Qed.

Lemma emits_exec env argv :
  (forall out err, Q (EvExec argv out err)) ->
  emits_only Q (execCombinedOutput env argv).
Proof. intros H h. cbn. auto. Qed.

Lemma emits_orFail step format rest :
  emits_only Q step -> emits_only Q rest ->
  emits_only Q (orFail step format rest).
Proof.
  intros Hs Hr. unfold orFail. apply emits_bind; [exact Hs |].
  intros [e |]; [apply emits_ret | exact Hr].
Qed.

End EmitsOnly.

Create HintDb emits discriminated.
Create HintDb code.

#[local] Hint Unfold LogInfo LogWarn LogError LogDebug LogSuccess logf Sleep
  idrac.makeRequest idrac.CheckConnectivity idrac.GetSystemInfo
  idrac.GetSystemPowerState idrac.GetSystemHealth idrac.PowerOnSystem
  idrac.PowerOffSystem idrac.RestartSystem idrac.SetVirtualCDBoot
  idrac.SetHDDBoot idrac.EjectVirtualMedia idrac.InsertVirtualMedia
  idrac.GetVirtualMediaInfo idrac.SetVirtualCDBootEnhanced
  idrac.ManageVirtualMediaBootProcess idrac.WaitForSystemPowerOn
  idrac.WaitForSystemPowerOff
  config.GetSSHKeyPrivatePath ssh.generateSSHKey ssh.CheckSSHKey
  ssh.SetupSSHKey ssh.CopyFileToRemote ssh.CopyISOToRemote
  openshift.getReleaseDigest openshift.ExtractInstaller openshift.cleanWorkDir
  openshift.copyOpenshiftDir openshift.copyConfigFiles
  openshift.PrepareWorkDir openshift.CreateAgentImage
  openshift.WaitForInstallComplete
  app.cleanup app.manageVirtualMediaBootProcess app.monitorInstallation
  app.powerOn app.powerOff : code.

(** One step of the syntax-directed proof that a piece of code emits
    only events of a given kind. *)
Ltac emits_step :=
  lazymatch goal with
  | |- emits_only _ (bind _ _) => apply emits_bind; [| intros ?]
  | |- emits_only _ (orFail _ _ _) => apply emits_orFail
  | |- emits_only _ (ret _) => apply emits_ret
  | |- emits_only _ (panic _) => apply emits_panic
  | |- emits_only _ (emit _) => apply emits_emit; try reflexivity
  | |- emits_only _ (httpDo _ _) =>
      apply emits_httpDo; intros; try reflexivity
  | |- emits_only _ (ctxDone _) =>
      apply emits_ctxDone; intros; try reflexivity
  | |- emits_only _ (osStat _ _) =>
      apply emits_osStat; intros; try reflexivity
  | |- emits_only _ (osCall _ _) =>
      apply emits_osCall; intros; try reflexivity
  | |- emits_only _ (execCombinedOutput _ _) =>
      apply emits_exec; intros; try reflexivity
  | |- emits_only _ (match ?x with _ => _ end) => destruct x
  | |- emits_only _ (let '(_, _) := ?x in _) => destruct x
  | |- emits_only _ (idrac.tryBootTargets _ _ _ _) =>
      unfold idrac.virtualCDOptions; cbn [idrac.tryBootTargets]
  | |- emits_only _ (openshift.copyEach _ _ _ _) =>
      unfold openshift.configFiles; cbn [openshift.copyEach]
  | |- emits_only _ _ =>
      first [ solve [auto with emits]
            | progress autounfold with code; cbn beta iota zeta ]
  end.

Ltac prove_emits := intros; repeat emits_step.

Lemma requestsBy_app method e1 e2 :
  requestsBy method (e1 ++ e2) = requestsBy method e1 ++ requestsBy method e2.
Proof.
  induction e1 as [| e e1 IH]; [reflexivity |].
  destruct e; cbn; auto.
  destruct (String.eqb (Method req) method); cbn; congruence.
Qed.

Lemma requestsBy_none method evs :
  Forall (fun e => isMethod method e = false) evs ->
  requestsBy method evs = [].
Proof.
  induction 1 as [| e evs He _ IH]; [reflexivity |].
  destruct e; cbn in *; auto. rewrite He. exact IH.
Qed.

Lemma GetVirtualMediaInfo_no_patch lib env c :
  emits_only (fun e => isMethod "PATCH" e = false)
             (idrac.GetVirtualMediaInfo lib env c).
Proof. prove_emits. Qed.

Section NeverPanics.

Lemma np_ret {A} (a : A) : never_panics (ret a).
Proof. intros h. exists a. reflexivity. Qed.

Lemma np_bind {A B} (m : M A) (f : A -> M B) :
  never_panics m -> (forall a, never_panics (f a)) -> never_panics (bind m f).
Proof.
  intros Hm Hf h. destruct (Hm h) as [a Ha].
  destruct (m h) as [r e1] eqn:E. cbn in Ha. subst r.
  rewrite (bind_val m f E). cbn. apply Hf.
Qed.

Lemma np_emit e : never_panics (emit e).
Proof. intros h. exists tt. reflexivity. Qed.

Lemma np_httpDo env req : never_panics (httpDo env req).
Proof. intros h. eexists. reflexivity. Qed.

Lemma np_ctxDone env : never_panics (ctxDone env).
Proof. intros h. eexists. reflexivity. Qed.

Lemma np_osStat env path : never_panics (osStat env path).
Proof. intros h. eexists. reflexivity. Qed.

Lemma np_osCall env call : never_panics (osCall env call).
Proof. intros h. eexists. reflexivity. Qed.

Lemma np_exec env argv : never_panics (execCombinedOutput env argv).
Proof. intros h. eexists. reflexivity. Qed.

Lemma np_orFail step format rest :
  never_panics step -> never_panics rest ->
  never_panics (orFail step format rest).
Proof.
  intros Hs Hr. unfold orFail. apply np_bind; [exact Hs |].
  intros [e |]; [apply np_ret | exact Hr].
Qed.

End NeverPanics.

Create HintDb total discriminated.

Ltac np_step :=
  lazymatch goal with
  | |- never_panics (bind _ _) => apply np_bind; [| intros ?]
  | |- never_panics (orFail _ _ _) => apply np_orFail
  | |- never_panics (ret _) => apply np_ret
  | |- never_panics (emit _) => apply np_emit
  | |- never_panics (httpDo _ _) => apply np_httpDo
  | |- never_panics (ctxDone _) => apply np_ctxDone
  | |- never_panics (osStat _ _) => apply np_osStat
  | |- never_panics (osCall _ _) => apply np_osCall
  | |- never_panics (execCombinedOutput _ _) => apply np_exec
  | |- never_panics (match ?x with _ => _ end) => destruct x
  | |- never_panics (let '(_, _) := ?x in _) => destruct x
  | |- never_panics (idrac.tryBootTargets _ _ _ _) =>
      unfold idrac.virtualCDOptions; cbn [idrac.tryBootTargets]
  | |- never_panics (openshift.copyEach _ _ _ _) =>
      unfold openshift.configFiles; cbn [openshift.copyEach]
  | |- never_panics _ =>
      first [ solve [auto with total]
            | progress autounfold with code; cbn beta iota zeta ]
  end.

Ltac prove_np := intros; repeat np_step.

(** Splitting the run of [m ;; k] when [m] cannot panic. *)
Lemma bind_run {A B} (m : M A) (f : A -> M B) h :
  never_panics m ->
  exists a e1,
    m h = (Val a, e1) /\
    bind m f h = (outcome (f a (h ++ e1)), e1 ++ events (f a (h ++ e1))).
Proof.
  intros Hm. destruct (Hm h) as [a Ha].
  destruct (m h) as [r e1] eqn:E. cbn in Ha. subst r.
  exists a, e1. split; [reflexivity | apply (bind_val m f E)].
Qed.

Arguments bind_run {A B} m f h _.

(** Run the leading step of the goal's computation: [run_emit] when it is
    a log line or a sleep, [run_total] when it is a call that cannot
    panic. *)
Ltac run_emit :=
  match goal with
  | |- context [bind ?m ?f ?h] =>
      rewrite (bind_val m f (eq_refl : m h = (Val tt, [_])));
      cbn [outcome events fst snd]
  end.

Ltac run_total Hnp a e1 E1 :=
  match goal with
  | |- context [bind ?m ?f ?h] =>
      let E2 := fresh "E" in
      destruct (bind_run m f h Hnp) as (a & e1 & E1 & E2);
      rewrite E2; clear E2; cbn [outcome events fst snd]
  end.

Lemma GetVirtualMediaInfo_total lib env c :
  never_panics (idrac.GetVirtualMediaInfo lib env c).
Proof. prove_np. Qed.

(** *** The boot-target loop *)

Ltac use_IH IH :=
  match goal with
  | |- context [idrac.tryBootTargets ?l ?e ?c ?r ?h] =>
      let H := fresh "IHh" in
      pose proof (IH h) as H; cbv zeta in H;
      destruct (idrac.tryBootTargets l e c r h) as [? ?]; cbn in H |- *
  end.

Lemma tryBootTargets_unsendable lib env c err :
  http_NewRequest lib "PATCH" (patchURL c) = Some err ->
  forall options h,
    let run := idrac.tryBootTargets lib env c options h in
    outcome run = Val (Some allOptionsFailed) /\
    requestsBy "PATCH" (events run) = [].
Proof.
  intros ENew. induction options as [| t rest IH]; intros h.
  - split; reflexivity.
  - cbn [idrac.tryBootTargets]. unfold idrac.makeRequest.
    fold (patchURL c). rewrite ENew.
    cbn. unfold bind. cbn. use_IH IH. exact IHh.
Qed.

Lemma tryBootTargets_spec lib env c :
  http_NewRequest lib "PATCH" (patchURL c) = None ->
  forall options h,
    let run := idrac.tryBootTargets lib env c options h in
    let patches := requestsBy "PATCH" (events run) in
    (outcome run = Val None /\
     exists failed target rest,
       options = failed ++ target :: rest /\
       patches =
         map (failedAttempt c) failed ++ [(bootRequest c target, true)])
    \/
    (outcome run = Val (Some allOptionsFailed) /\
     patches = map (failedAttempt c) options).
Proof.
  intros ENew. induction options as [| t rest IH]; intros h.
  - right. split; reflexivity.
  - cbn [idrac.tryBootTargets]. unfold idrac.makeRequest.
    fold (patchURL c). rewrite ENew.
    cbn. unfold bind. cbn.
    match goal with
    | |- context [http_Do env ?h ?r] =>
        change r with (bootRequest c t);
        destruct (http_Do env h (bootRequest c t)) as [e | resp] eqn:EDo
    end; cbn.
    + use_IH IH.
      destruct IHh as [[Hok (failed & target & rest' & Hopt & Hp)] | [Herr Hp]].
      * left. split; [exact Hok |].
        exists (t :: failed), target, rest'. split; [cbn; congruence |].
        cbn. rewrite Hp. reflexivity.
      * right. split; [exact Herr |]. rewrite Hp. reflexivity.
    + destruct (StatusCode resp =? StatusOK)%Z eqn:Ecode; cbn.
      * left. split; [reflexivity |].
        exists [], t, rest. split; [reflexivity |].
        cbn. rewrite Ecode. reflexivity.
      * use_IH IH. rewrite Ecode.
        destruct IHh as [[Hok (failed & target & rest' & Hopt & Hp)] | [Herr Hp]].
        -- left. split; [exact Hok |].
           exists (t :: failed), target, rest'. split; [cbn; congruence |].
           cbn. rewrite Hp. reflexivity.
        -- right. split; [exact Herr |]. rewrite Hp. reflexivity.
Qed.

(** The steps of SetVirtualCDBootEnhanced that come before the loop send
    no PATCH request and always hand over to the loop. *)
Lemma SetVirtualCDBootEnhanced_run lib env c h :
  exists pre,
    requestsBy "PATCH" pre = [] /\
    idrac.SetVirtualCDBootEnhanced lib env c h =
      (outcome (idrac.tryBootTargets lib env c idrac.virtualCDOptions (h ++ pre)),
       pre ++ events (idrac.tryBootTargets lib env c idrac.virtualCDOptions
                                           (h ++ pre))).
Proof.
  unfold idrac.SetVirtualCDBootEnhanced.
  run_emit.
  run_total (GetVirtualMediaInfo_total lib env c) r e1 E1.
  pose proof (GetVirtualMediaInfo_no_patch lib env c
                (h ++ [EvLog LInfo
                   "Setting boot device to Virtual CD/DVD (Enhanced)..." []]))
    as Hq.
  rewrite E1 in Hq. cbn in Hq. apply requestsBy_none in Hq.
  match goal with
  | |- context [bind ?m ?f ?h'] =>
      assert (Hw : exists w, requestsBy "PATCH" w = [] /\ m h' = (Val tt, w))
  end.
  { destruct r as [e | mi]; [| destruct (negb (Inserted mi))];
      eexists; (split; [| reflexivity]); reflexivity. }
  destruct Hw as (w & Hw & Ew).
  rewrite (bind_val _ _ Ew). cbn [outcome events fst snd].
  exists ([EvLog LInfo "Setting boot device to Virtual CD/DVD (Enhanced)..." []]
            ++ e1 ++ w).
  split.
  - rewrite !requestsBy_app, Hq, Hw. reflexivity.
  - rewrite <- !app_assoc. reflexivity.
Qed.

(** C1.  SetVirtualCDBootEnhanced sends its PATCH requests for the targets
    RemoteCd, VirtualCd, Cd in this order, one request each; it returns
    nil exactly when a request is answered 200, and that request is the
    last one sent; when all three are refused it returns the error
    [allOptionsFailed] (also when the request cannot even be built, in
    which case nothing is sent). *)
Theorem SetVirtualCDBootEnhanced_first_success_wins lib env c h :
  let run := idrac.SetVirtualCDBootEnhanced lib env c h in
  let patches := requestsBy "PATCH" (events run) in
  idrac.virtualCDOptions = ["RemoteCd"; "VirtualCd"; "Cd"] /\
  ((outcome run = Val None /\
    exists failed target rest,
      idrac.virtualCDOptions = failed ++ target :: rest /\
      patches =
        map (failedAttempt c) failed ++ [(bootRequest c target, true)])
   \/
   (outcome run = Val (Some allOptionsFailed) /\
    (patches = map (failedAttempt c) idrac.virtualCDOptions
     \/ (patches = [] /\
         http_NewRequest lib "PATCH" (patchURL c) <> None)))).
Proof.
  cbv zeta. split; [reflexivity |].
  destruct (SetVirtualCDBootEnhanced_run lib env c h) as (pre & Hpre & E).
  rewrite E. cbn [outcome events fst snd].
  rewrite requestsBy_app, Hpre. cbn [app].
  destruct (http_NewRequest lib "PATCH" (patchURL c)) as [err |] eqn:ENew.
  - right.
    destruct (tryBootTargets_unsendable lib env c ENew
                idrac.virtualCDOptions (h ++ pre)) as [Ho Hp].
    split; [exact Ho |]. right. split; [exact Hp | discriminate].
  - destruct (tryBootTargets_spec lib env c ENew
                idrac.virtualCDOptions (h ++ pre)) as [Hok | [Herr Hp]].
    + left. exact Hok.
    + right. split; [exact Herr | left; exact Hp].
Qed.

(** *** The polling loop *)

Lemma observations_app e1 e2 :
  observations (e1 ++ e2) = observations e1 ++ observations e2.
Proof.
  induction e1 as [| e e1 IH]; [reflexivity |].
  cbn. destruct (observation e); cbn; congruence.
Qed.

Lemma iterations_app e1 e2 : iterations (e1 ++ e2) = iterations e1 + iterations e2.
Proof. unfold iterations. rewrite filter_app, length_app. reflexivity. Qed.

Lemma completed_app e1 e2 : completed (e1 ++ e2) = completed e1 + completed e2.
Proof. unfold completed. rewrite filter_app, length_app. reflexivity. Qed.

Lemma filter_none {X} (p : X -> bool) l :
  Forall (fun x => p x = false) l -> filter p l = [].
Proof.
  induction 1 as [| x l Hx _ IH]; [reflexivity |]. cbn. rewrite Hx. exact IH.
Qed.

Lemma quiet_counts evs :
  Forall quietEvent evs ->
  iterations evs = 0 /\ completed evs = 0 /\
  Forall (fun e => isSleep e = true -> e = EvSleep 10) evs.
Proof.
  intros H. unfold iterations, completed. repeat split.
  - rewrite filter_none; [reflexivity |].
    eapply Forall_impl; [| exact H]. intros e [_ He]. exact He.
  - rewrite filter_none; [reflexivity |].
    eapply Forall_impl; [| exact H]. intros e [He _]. exact He.
  - eapply Forall_impl; [| exact H]. intros e [He _] Hs. congruence.
Qed.

Lemma GetSystemPowerState_quiet lib env c :
  emits_only quietEvent (idrac.GetSystemPowerState lib env c).
Proof. prove_emits; split; reflexivity. Qed.

(** A query of the power state returns, and the trace shows the state
    it has read, if any. *)
Lemma GetSystemPowerState_obs lib env c h :
  exists s err evs,
    idrac.GetSystemPowerState lib env c h = (Val (s, err), evs) /\
    observations evs = match err with None => [s] | Some _ => [] end.
Proof.
  unfold idrac.GetSystemPowerState, idrac.GetSystemInfo, idrac.makeRequest.
  destruct (http_NewRequest lib "GET" _) as [e |].
  - do 3 eexists. split; reflexivity.
  - cbn. unfold bind. cbn.
    match goal with
    | |- context [http_Do env ?h ?r] => destruct (http_Do env h r) as [e | resp]
    end; cbn; [do 3 eexists; split; reflexivity |].
    destruct (negb (StatusCode resp =? StatusOK)%Z); cbn;
      [do 3 eexists; split; reflexivity |].
    destruct (RespBody resp) as [e | body]; cbn;
      [do 3 eexists; split; reflexivity |].
    destruct (json_Unmarshal_SystemInfo lib body) as [e | si]; cbn;
      do 3 eexists; split; reflexivity.
Qed.

Lemma polls_until_step expected timeout r o evr pre :
  polls_until expected timeout r (o, evr) ->
  iterations pre = 1 -> completed pre = 1 ->
  Forall (fun e => isSleep e = true -> e = EvSleep 10) pre ->
  (observations pre = [] \/
   exists s, observations pre = [s] /\ s <> expected) ->
  polls_until expected timeout (S r) (o, pre ++ evr).
Proof.
  unfold polls_until. cbn [outcome events fst snd].
  intros (Hit & Hlen & Hsl & Hcases) Hi Hc Hs Hobs.
  rewrite iterations_app, completed_app, observations_app, length_app, Hi, Hc.
  assert (Hl : List.length (observations pre) <= 1).
  { destruct Hobs as [-> | (s & -> & _)]; cbn; lia. }
  assert (Hin : forall l, ~ In expected l -> ~ In expected (observations pre ++ l)).
  { intros l Hl' Hin. apply in_app_or in Hin. destruct Hin as [Hin | Hin]; [| tauto].
    destruct Hobs as [E | (s & E & Hne)]; rewrite E in Hin; cbn in Hin; [tauto |].
    destruct Hin as [-> | []]. congruence. }
  split; [lia |]. split; [lia |].
  split; [apply Forall_app; split; assumption |].
  destruct Hcases as [(Ho & (before & Eb & Hb) & Hlt)
                     | [(Ho & Hn & Hc' & Hi') | (d & Ho & Hn & Hlt)]].
  - left. split; [exact Ho |]. split; [| lia].
    exists (observations pre ++ before). split.
    + rewrite Eb, app_assoc. reflexivity.
    + apply Hin. exact Hb.
  - right. left. repeat split; [exact Ho | apply Hin; exact Hn | lia | lia].
  - right. right. exists d. repeat split; [exact Ho | apply Hin; exact Hn | lia].
Qed.

(** The loop of WaitForSystemPowerOn and WaitForSystemPowerOff, for any
    budget of attempts. *)
Lemma waitLoop_polls lib env c expected failureLog failure success :
  forall remaining h,
    polls_until expected (Errorf failure []) remaining
      (idrac.waitLoop lib env c expected failureLog failure success
                      remaining h).
Proof.
  induction remaining as [| r IH]; intros h.
  - unfold polls_until. cbn. split; [lia |]. split; [lia |].
    split; [repeat constructor; discriminate |].
    right. left. repeat split; auto.
  - cbn [idrac.waitLoop]. unfold bind at 1, ctxDone.
    destruct (ctx_Err env h) as [d |]; cbn [option_map].
    + unfold polls_until. cbn. split; [lia |]. split; [lia |].
      split; [repeat constructor; discriminate |].
      right. right. exists d. repeat split; auto. lia.
    + destruct (GetSystemPowerState_obs lib env c (h ++ [EvCtx None]))
        as (s & err & evs & EGet & Hobs).
      pose proof (GetSystemPowerState_quiet lib env c (h ++ [EvCtx None]))
        as Hq.
      rewrite EGet in Hq. cbn in Hq. apply quiet_counts in Hq.
      destruct Hq as (Hit & Hco & Hsl).
      unfold bind at 1. rewrite EGet.
      set (wait := (LogInfo
                      "System power state: %s, waiting... (attempt %d/%d)" _ ;;
                    _)).
      assert (Hwait : forall h', exists o evr,
                 wait h' = (o, [EvLog LInfo
                     "System power state: %s, waiting... (attempt %d/%d)"
                     [ArgS s; ArgD (Z.of_nat (idrac.maxAttempts - S r) + 1);
                      ArgD (Z.of_nat idrac.maxAttempts)];
                   EvSleep 10] ++ evr) /\
                 polls_until expected (Errorf failure []) r (o, evr)).
      { intros h'. unfold wait, bind. cbn -[idrac.waitLoop Nat.sub].
        match goal with
        | |- context [idrac.waitLoop ?a ?b ?c ?d ?e ?f ?g ?r0 ?h0] =>
            specialize (IH h0);
            destruct (idrac.waitLoop a b c d e f g r0 h0) as [o evr]
        end.
        exists o, evr. split; [reflexivity | exact IH]. }
      clearbody wait.
      destruct err as [e |].
      * unfold bind. cbn -[Nat.sub].
        match goal with
        | |- context [wait ?h0] =>
            destruct (Hwait h0) as (o & evr & -> & Hp)
        end.
        match goal with
        | |- polls_until _ _ _ (_, ?l) =>
            replace l with
              (([EvCtx None] ++ evs ++
                [EvLog LWarn "Failed to get power state: %v" [ArgE e];
                 EvLog LInfo
                   "System power state: %s, waiting... (attempt %d/%d)"
                   [ArgS s; ArgD (Z.of_nat (idrac.maxAttempts - S r) + 1);
                    ArgD (Z.of_nat idrac.maxAttempts)];
                 EvSleep 10]) ++ evr)
              by (cbn -[Nat.sub]; rewrite <- !app_assoc; reflexivity)
        end.
        apply polls_until_step; [exact Hp | | | |].
        -- rewrite !iterations_app, Hit. reflexivity.
        -- rewrite !completed_app, Hco. reflexivity.
        -- apply Forall_app. split; [repeat constructor; discriminate |].
           apply Forall_app. split; [exact Hsl |].
           repeat constructor; discriminate.
        -- left. rewrite !observations_app, Hobs. reflexivity.
      * destruct (String.eqb s expected) eqn:Es.
        -- apply String.eqb_eq in Es. subst s.
           unfold bind. cbn.
           unfold polls_until. cbn [outcome events fst snd].
           change (EvCtx None :: evs ++ [EvLog LSuccess success []])
             with ([EvCtx None] ++ evs ++ [EvLog LSuccess success []]).
           rewrite !iterations_app, !completed_app, !observations_app,
             Hit, Hco, Hobs.
           cbn. split; [lia |]. split; [lia |]. split.
           { constructor; [discriminate |]. apply Forall_app. split;
               [exact Hsl | repeat constructor; discriminate]. }
           left. split; [reflexivity |]. split; [| lia].
           exists []. split; [reflexivity | intros []].
        -- apply String.eqb_neq in Es.
           match goal with
           | |- context [wait ?h0] =>
               destruct (Hwait h0) as (o & evr & -> & Hp)
           end.
           match goal with
           | |- polls_until _ _ _ (_, ?l) =>
               replace l with
                 (([EvCtx None] ++ evs ++
                   [EvLog LInfo
                      "System power state: %s, waiting... (attempt %d/%d)"
                      [ArgS s; ArgD (Z.of_nat (idrac.maxAttempts - S r) + 1);
                       ArgD (Z.of_nat idrac.maxAttempts)];
                    EvSleep 10]) ++ evr)
                 by (cbn -[Nat.sub]; rewrite <- !app_assoc; reflexivity)
           end.
           apply polls_until_step; [exact Hp | | | |].
           ++ rewrite !iterations_app, Hit. reflexivity.
           ++ rewrite !completed_app, Hco. reflexivity.
           ++ apply Forall_app. split; [repeat constructor; discriminate |].
              apply Forall_app. split; [exact Hsl |].
              repeat constructor; discriminate.
           ++ right. exists s. rewrite !observations_app, Hobs.
              split; [reflexivity | exact Es].
Qed.




(** *** Power on and power off *)

Lemma httpRequests_app e1 e2 :
  httpRequests (e1 ++ e2) = httpRequests e1 ++ httpRequests e2.
Proof.
  induction e1 as [| e e1 IH]; [reflexivity |].
  destruct e; cbn; congruence.
Qed.


Lemma filter_reset_app e1 e2 :
  filter isResetCommand e1 = [] -> filter isResetCommand e2 = [] ->
  filter isResetCommand (e1 ++ e2) = [].
Proof. intros H1 H2. rewrite filter_app, H1, H2. reflexivity. Qed.






(** *** The boot-media sequence *)

Lemma EjectVirtualMedia_total lib env c :
  never_panics (idrac.EjectVirtualMedia lib env c).
Proof. prove_np. Qed.

Lemma EjectVirtualMedia_no_boot lib env c :
  emits_only (fun e => isBootOrReset e = false)
             (idrac.EjectVirtualMedia lib env c).
Proof. prove_emits. Qed.

Lemma InsertVirtualMedia_no_boot lib env c url :
  emits_only (fun e => isBootOrReset e = false)
             (idrac.InsertVirtualMedia lib env c url).
Proof. prove_emits. Qed.

Lemma no_boot_or_reset evs :
  Forall (fun e => isBootOrReset e = false) evs ->
  requestsBy "PATCH" evs = [] /\ filter isResetCommand evs = [].
Proof.
  intros H. split.
  - apply requestsBy_none. eapply Forall_impl; [| exact H].
    intros e He. unfold isBootOrReset in He.
    apply orb_false_iff in He. tauto.
  - apply filter_none. eapply Forall_impl; [| exact H].
    intros e He. unfold isBootOrReset in He.
    apply orb_false_iff in He. tauto.
Qed.

(** C7.  ManageVirtualMediaBootProcess runs the eject step and, whatever
    it returned (a failure is logged as a warning), goes on to the insert
    step; when the insert step fails, the sequence returns that error
    wrapped, and nothing follows: no PATCH request and no reset command
    is sent in the whole run. *)
Theorem ManageVirtualMediaBootProcess_eject_soft_insert_fatal
        lib env c isoURL h :
  let run := idrac.ManageVirtualMediaBootProcess lib env c isoURL h in
  exists e1 evE rI evI post,
    idrac.EjectVirtualMedia lib env c (h ++ manageIntro) = (Val e1, evE) /\
    idrac.InsertVirtualMedia lib env c isoURL
      (h ++ manageIntro ++ evE ++ ejectWarning e1 ++ manageStep2) = (rI, evI) /\
    events run =
      manageIntro ++ evE ++ ejectWarning e1 ++ manageStep2 ++ evI ++ post /\
    (forall e, rI = Val (Some e) ->
       outcome run =
         Val (Some (Errorf "failed to insert virtual media: %w" [ArgE e])) /\
       post = [] /\
       requestsBy "PATCH" (events run) = [] /\
       filter isResetCommand (events run) = []).
Proof.
  intros run.
  assert (Hrun : run = run) by reflexivity.
  unfold run at 2, idrac.ManageVirtualMediaBootProcess in Hrun.
  unfold bind at 1 in Hrun; cbn [LogInfo logf emit] in Hrun.
  unfold bind at 1 in Hrun; cbn [LogInfo logf emit] in Hrun.
  replace ((h ++ [EvLog LInfo
      "Starting enhanced virtual media boot management process..." []]) ++
      [EvLog LInfo "Step 1: Ejecting existing virtual media..." []])
    with (h ++ manageIntro) in Hrun by (rewrite <- app_assoc; reflexivity).
  destruct (EjectVirtualMedia_total lib env c (h ++ manageIntro)) as [e1 He1].
  pose proof (EjectVirtualMedia_no_boot lib env c (h ++ manageIntro)) as HqE.
  destruct (idrac.EjectVirtualMedia lib env c (h ++ manageIntro))
    as [oE evE] eqn:EE.
  cbn in He1, HqE. subst oE.
  unfold bind at 1 in Hrun. rewrite EE in Hrun.
  assert (Ew : forall h',
    (match e1 with
     | Some e => LogWarn "Failed to eject existing virtual media: %v" [ArgE e]
     | None => ret tt
     end) h' = (Val tt, ejectWarning e1)).
  { intros h'. destruct e1; reflexivity. }
  unfold bind at 1 in Hrun. rewrite Ew in Hrun.
  unfold bind at 1 in Hrun; cbn [Sleep emit] in Hrun.
  unfold bind at 1 in Hrun; cbn [LogInfo logf emit] in Hrun.
  replace (((((h ++ manageIntro) ++ evE) ++ ejectWarning e1) ++ [EvSleep 10]) ++
           [EvLog LInfo "Step 2: Inserting new virtual media..." []])
    with (h ++ manageIntro ++ evE ++ ejectWarning e1 ++ manageStep2) in Hrun
    by (unfold manageStep2; rewrite <- !app_assoc; reflexivity).
  pose proof (InsertVirtualMedia_no_boot lib env c isoURL
    (h ++ manageIntro ++ evE ++ ejectWarning e1 ++ manageStep2)) as HqI.
  unfold orFail at 1 in Hrun. unfold bind at 1 in Hrun.
  destruct (idrac.InsertVirtualMedia lib env c isoURL
    (h ++ manageIntro ++ evE ++ ejectWarning e1 ++ manageStep2))
    as [rI evI] eqn:EI.
  cbn in HqI.
  exists e1, evE, rI, evI.
  destruct rI as [[e |] | msg].
  - cbn [ret] in Hrun. exists [].
    split; [first [reflexivity | exact EE] |].
    split; [first [reflexivity | exact EI] |]. rewrite Hrun.
    split; [cbn; rewrite !app_nil_r; reflexivity |].
    intros e' He'. injection He' as <-.
    split; [reflexivity |]. split; [reflexivity |].
    apply no_boot_or_reset. cbn [events snd].
    repeat (apply Forall_app; split); try assumption;
      try (destruct e1); repeat constructor.
  - cbn beta iota in Hrun.
    match type of Hrun with
    | context [let (_, _) := bind ?m ?f ?h0 in _] =>
        destruct (bind m f h0) as [o post]
    end.
    exists post.
    split; [first [reflexivity | exact EE] |].
    split; [first [reflexivity | exact EI] |]. rewrite Hrun.
    split; [reflexivity |]. discriminate.
  - exists [].
    split; [first [reflexivity | exact EE] |].
    split; [first [reflexivity | exact EI] |]. rewrite Hrun.
    split; [cbn; rewrite !app_nil_r; reflexivity |]. discriminate.
Qed.

(** *** Sequences of fallible steps *)

Section Frame.

Variable Q : Event -> Prop.
Variable R : result goerror -> list Event -> Prop.

(** [R] holds of a run that stopped early having added only [Q]-events,
    and it is kept when [Q]-events are put in front. *)
Hypothesis R_stop : forall r evs, r <> Val None -> Forall Q evs -> R r evs.
Hypothesis R_prefix :
  forall r pre evs, Forall Q pre -> R r evs -> R r (pre ++ evs).

Lemma sat_bind {A} (m : M A) (f : A -> M goerror) :
  emits_only Q m -> (forall a, satisfies R (f a)) -> satisfies R (bind m f).
Proof.
  intros Hm Hf h. specialize (Hm h).
  destruct (m h) as [[a | msg] e1] eqn:E.
  - rewrite (bind_val m f E). cbn [outcome events fst snd].
    apply R_prefix; [exact Hm | apply Hf].
  - rewrite (bind_panic m f E). cbn [outcome events fst snd].
    apply R_stop; [discriminate | exact Hm].
Qed.

Lemma sat_orFail step format rest :
  emits_only Q step -> satisfies R rest ->
  satisfies R (orFail step format rest).
Proof.
  intros Hs Hr. unfold orFail. apply sat_bind; [exact Hs |].
  intros [e |]; [| exact Hr].
  intros h. cbn. apply R_stop; [discriminate | constructor].
Qed.

End Frame.

Ltac sat_steps Hstop Hprefix :=
  repeat first
    [ apply (sat_orFail Hstop Hprefix); [solve [prove_emits] |]
    | apply (sat_bind Hstop Hprefix); [solve [prove_emits] | intros ?] ].

(** *** No polling after the restart *)














(** *** The full installation run *)

Lemma waitLoop_total lib env c expected failureLog failure success remaining :
  never_panics
    (idrac.waitLoop lib env c expected failureLog failure success remaining).
Proof.
  induction remaining as [| r IH]; cbn [idrac.waitLoop]; prove_np;
    exact IH.
Qed.

#[local] Hint Resolve waitLoop_total : total.

Lemma outcome_bind_nil {A} (m : M A) (f : A -> M goerror) :
  never_panics m -> (forall a h, outcome (f a h) = Val None) ->
  forall h, outcome (bind m f h) = Val None.
Proof.
  intros Hm Hf h. destruct (bind_run m f h Hm) as (a & e1 & _ & E).
  rewrite E. cbn. apply Hf.
Qed.

Ltac nil_steps :=
  repeat (apply outcome_bind_nil; [solve [prove_np] | intros ? ?]).

(** cleanup returns nil whatever its requests return. *)
Lemma cleanup_returns_nil lib env a powerOff h :
  outcome (app.cleanup lib env a powerOff h) = Val None.
Proof.
  revert h. unfold app.cleanup.
  apply outcome_bind_nil; [prove_np | intros _].
  apply outcome_bind_nil; [prove_np | intros e1].
  apply outcome_bind_nil; [prove_np | intros _].
  apply outcome_bind_nil; [prove_np | intros e2].
  apply outcome_bind_nil; [prove_np | intros _].
  apply outcome_bind_nil; [prove_np | intros _].
  apply outcome_bind_nil; [prove_np | intros _].
  reflexivity.
Qed.

Lemma cleanup_total lib env a powerOff :
  never_panics (app.cleanup lib env a powerOff).
Proof.
  intros h. exists None. apply cleanup_returns_nil.
Qed.

Lemma cleanup_only_stop r evs :
  r <> Val None -> Forall (fun e => isCleanup e = false) evs ->
  cleanup_only_on_success r evs.
Proof. intros _ H. right. exact H. Qed.

Lemma cleanup_only_prefix r pre evs :
  Forall (fun e => isCleanup e = false) pre ->
  cleanup_only_on_success r evs -> cleanup_only_on_success r (pre ++ evs).
Proof.
  intros H [Hr | He]; [left; exact Hr | right].
  apply Forall_app. split; assumption.
Qed.

(** In every run of runInstall, an event of cleanup appears only when
    the run returns nil: a step that fails returns at once. *)
Lemma runInstall_cleanup_only_on_success lib env a :
  satisfies cleanup_only_on_success (app.runInstall lib env a).
Proof.
  unfold app.runInstall.
  sat_steps cleanup_only_stop cleanup_only_prefix.
  intros h. left. revert h.
  apply outcome_bind_nil; [apply cleanup_total | intros e].
  apply outcome_bind_nil; [prove_np | intros _].
  apply outcome_bind_nil; [prove_np | intros _].
  reflexivity.
Qed.

(** C3, at a failing input.  The controller accepts the image but refuses
    the three boot targets: the run fails in the boot-media step, with
    the image still inserted, and returns without any event of cleanup
    (no eject afterwards, no PATCH of the HDD boot target). *)
Theorem runInstall_failure_skips_cleanup :
  let run :=
    app.runInstall Sample.lib (Sample.acceptsOnly "Hdd") Sample.theApp [] in
  outcome run =
    Val (Some
      (Errorf "failed to manage virtual media boot process: %w"
         [ArgE (Errorf "failed to set boot device to virtual CD/DVD: %w"
            [ArgE allOptionsFailed])])) /\
  map (fun req => (Method req, Payload req))
      (filter (fun req => negb (String.eqb (Method req) "GET"))
              (httpRequests (events run))) =
    [("POST", BodyEmptyMap);
     ("POST", BodyVirtualMedia {| Image := ISOURL (Remote Sample.cfg) |});
     ("PATCH", idrac.bootOnce "RemoteCd");
     ("PATCH", idrac.bootOnce "VirtualCd");
     ("PATCH", idrac.bootOnce "Cd")] /\
  filter isCleanup (events run) = [].
Proof. vm_compute. repeat split. Qed.

(** *** A missing image at transfer time *)

Lemma CopyISOToRemote_missing lib env m isoPath h :
  os_Stat env (h ++ [transferStarted]) isoPath = StatNotExist ->
  ssh.CopyISOToRemote lib env m isoPath h =
    (Val (Some (Errorf "ISO file not found: %s" [ArgS isoPath])),
     [transferStarted; EvStat isoPath StatNotExist; isoWarning isoPath]).
Proof.
  intros H. unfold ssh.CopyISOToRemote, bind, osStat. cbn.
  unfold transferStarted in H. rewrite H. reflexivity.
Qed.

Lemma transfer_is_fatal_stop isoPath r evs :
  r <> Val None -> Forall beforeTransfer evs ->
  transfer_is_fatal isoPath r evs.
Proof.
  intros Hr H. split; [exact Hr |]. split.
  - eapply Forall_impl; [| exact H]. intros e He.
    apply orb_false_iff in He. tauto.
  - intros Hin. rewrite Forall_forall in H. specialize (H _ Hin).
    discriminate H.
Qed.

Lemma transfer_is_fatal_prefix isoPath r pre evs :
  Forall beforeTransfer pre ->
  transfer_is_fatal isoPath r evs -> transfer_is_fatal isoPath r (pre ++ evs).
Proof.
  intros H (Hr & Hl & Hm). split; [exact Hr |]. split.
  - apply Forall_app. split; [| exact Hl].
    eapply Forall_impl; [| exact H]. intros e He.
    apply orb_false_iff in He. tauto.
  - intros Hin. apply in_app_or in Hin. destruct Hin as [Hin | Hin].
    + rewrite Forall_forall in H. specialize (H _ Hin). discriminate H.
    + destruct (Hm Hin) as [Hx Hw]. split; [exact Hx |].
      apply in_or_app. right. exact Hw.
Qed.

(** C4, as the code has it.  When the image is missing, CopyISOToRemote
    logs a warning and returns an error, and runInstall returns it
    wrapped: the run fails, and none of the later steps (boot media,
    monitoring, cleanup) leaves an event. *)
Theorem runInstall_missing_iso_is_fatal lib env a h :
  (forall h',
      os_Stat env h' (openshift.GetISOFilePath lib (app.installer a))
      = StatNotExist) ->
  let run := app.runInstall lib env a h in
  transfer_is_fatal (openshift.GetISOFilePath lib (app.installer a))
                    (outcome run) (events run).
Proof.
  intros Hmissing. cbv zeta. revert h.
  change (satisfies
            (transfer_is_fatal (openshift.GetISOFilePath lib (app.installer a)))
            (app.runInstall lib env a)).
  unfold app.runInstall.
  sat_steps (@transfer_is_fatal_stop
               (openshift.GetISOFilePath lib (app.installer a)))
            (@transfer_is_fatal_prefix
               (openshift.GetISOFilePath lib (app.installer a))).
  intros h. cbv zeta. unfold orFail, bind.
  rewrite CopyISOToRemote_missing by apply Hmissing.
  cbn [ret outcome events fst snd app]. split; [discriminate |]. split.
  - repeat constructor.
  - intros _. split; [reflexivity |]. right. right. left. reflexivity.
Qed.

Lemma runInstall_missing_iso_is_fatal_witness :
  let iso := openshift.GetISOFilePath Sample.lib (app.installer Sample.theApp) in
  let run := app.runInstall Sample.lib (Sample.without iso) Sample.theApp [] in
  (forall h', os_Stat (Sample.without iso) h' iso = StatNotExist) /\
  transfer_is_fatal iso (outcome run) (events run).
Proof.
  split; [intros h'; reflexivity |].
  apply (runInstall_missing_iso_is_fatal Sample.lib
           (Sample.without
              (openshift.GetISOFilePath Sample.lib (app.installer Sample.theApp)))
           Sample.theApp []).
  intros h'. reflexivity.
Defined.

(** C4 fails as stated: everything works up to the transfer, the image
    is missing, and the run returns an error right after the warning
    instead of going on. *)
Lemma runInstall_missing_iso_aborts :
  let iso := openshift.GetISOFilePath Sample.lib (app.installer Sample.theApp) in
  let run := app.runInstall Sample.lib (Sample.without iso) Sample.theApp [] in
  outcome run = Val (Some (isoMissing iso)) /\
  last (events run) transferStarted = isoWarning iso /\
  filter isLaterStep (events run) = [].
Proof. vm_compute. repeat split. Qed.

(** *** A missing configuration file at staging time *)

Section AlwaysFails.




End AlwaysFails.

Section MissingConfigFile.

Variable lib : GoLib.
Variable env : Env.
Variable i : openshift.Installer.
Variable filename : string.

Hypothesis required : In filename openshift.configFiles.

Hypothesis missing :
  forall h,
    os_Stat env h
      (filepath_Join lib [SourceDir (Paths (openshift.config i)); filename])
    = StatNotExist.





End MissingConfigFile.





(** *** The web cache *)

Section WebCache.

Import webcache.

Variable lib : HttpLib.

Lemma calculateETag_inv fs path etag modTime :
  calculateETag lib fs path = inr (etag, modTime) ->
  exists file data,
    fs path = inr file /\ Contents file = inr data /\
    ModTime file = inr modTime /\ etag = etagOf lib data.
Proof.
  unfold calculateETag. intros H.
  destruct (fs path) as [e | file]; [discriminate |].
  destruct (Contents file) as [e | data] eqn:Ec; [discriminate |].
  destruct (ModTime file) as [e | mt] eqn:Em; [discriminate |].
  injection H as <- <-. exists file, data. repeat split; assumption.
Qed.

Lemma main_inv stdin fs0 requests replies :
  main lib stdin fs0 requests = inr replies ->
  exists path etag modTime,
    calculateETag lib fs0 path = inr (etag, modTime) /\
    replies =
      map (fun q => dispatch lib path etag modTime (fst q) (snd q)) requests.
Proof.
  unfold main. intros H.
  destruct (ReadString stdin) as [e | line]; [discriminate |].
  destruct (calculateETag lib fs0 (strings_TrimSpace lib line))
    as [e | [etag modTime]] eqn:Ec; [discriminate |].
  injection H as <-. exists (strings_TrimSpace lib line), etag, modTime.
  split; [exact Ec | reflexivity].
Qed.

Lemma etagOf_not_empty data : String.eqb (etagOf lib data) EmptyString = false.
Proof. reflexivity. Qed.

Lemma handler_match path data modTime fs r :
  Get (ReqHeader r) "If-None-Match" = etagOf lib data ->
  handler lib path (etagOf lib data) modTime fs r = (notModified, []).
Proof.
  intros H. unfold handler. rewrite H, etagOf_not_empty, String.eqb_refl.
  reflexivity.
Qed.

Lemma handler_serve path etag modTime fs r file :
  Get (ReqHeader r) "If-None-Match" <> etag ->
  fs path = inr file ->
  exists hd,
    handler lib path etag modTime fs r =
      (http_ServeContent lib hd r "agent.x86_64.iso" modTime file,
       [Opened path]) /\
    Get hd "ETag" = etag /\
    Get hd "Last-Modified" = time_HTTPFormat lib modTime.
Proof.
  intros Hne Hfile. unfold handler. rewrite Hfile.
  apply String.eqb_neq in Hne. rewrite Hne.
  eexists. split.
  - destruct (negb _); reflexivity.
  - split; reflexivity.
Qed.

End WebCache.

(** C9.  Once the server has started, its ETag is the quoted hex digest
    of the content the file had at startup and its modification time is
    the one the file had then.  A request for the served path whose
    If-None-Match equals that ETag is answered 304 with no header set, an
    empty body and without opening the file.  Any other request for the
    path whose file can be opened is handed to http.ServeContent with the
    ETag header set to that same value and Last-Modified to the formatted
    modification time, so that a 200 reply carries both. *)
Theorem webcache_conditional_requests lib stdin fs0 requests replies :
  webcache.main lib stdin fs0 requests = inr replies ->
  exists path file data modTime,
    fs0 path = inr file /\
    webcache.Contents file = inr data /\
    webcache.ModTime file = inr modTime /\
    forall n fs r,
      nth_error requests n = Some (fs, r) ->
      webcache.ReqPath r = webcache.servedPath ->
      (webcache.Get (webcache.ReqHeader r) "If-None-Match" = etagOf lib data ->
       nth_error replies n = Some (notModified, []))
      /\
      (webcache.Get (webcache.ReqHeader r) "If-None-Match" <> etagOf lib data ->
       forall served, fs path = inr served ->
       exists hd,
         let reply :=
           webcache.http_ServeContent lib hd r "agent.x86_64.iso" modTime
                                      served in
         nth_error replies n = Some (reply, [webcache.Opened path]) /\
         webcache.Get hd "ETag" = etagOf lib data /\
         webcache.Get hd "Last-Modified" = webcache.time_HTTPFormat lib modTime /\
         (keeps_validators lib -> webcache.Status reply = 200%Z ->
          webcache.Get (webcache.ReplyHeader reply) "ETag" = etagOf lib data /\
          webcache.Get (webcache.ReplyHeader reply) "Last-Modified"
          = webcache.time_HTTPFormat lib modTime)).
Proof.
  intros Hmain.
  destruct (main_inv lib _ _ _ Hmain) as (path & etag & modTime & Hcalc & ->).
  destruct (calculateETag_inv lib _ _ Hcalc)
    as (file & data & Hfile & Hdata & Hmod & ->).
  exists path, file, data, modTime.
  split; [exact Hfile |]. split; [exact Hdata |]. split; [exact Hmod |].
  intros n fs r Hnth Hpath.
  assert (Hreply :
    nth_error
      (map (fun q => webcache.dispatch lib path (etagOf lib data) modTime
                       (fst q) (snd q)) requests) n
    = Some (webcache.handler lib path (etagOf lib data) modTime fs r)).
  { rewrite nth_error_map, Hnth. cbn [option_map fst snd].
    unfold webcache.dispatch. rewrite Hpath, String.eqb_refl. reflexivity. }
  split.
  - intros Hmatch. rewrite Hreply, handler_match by exact Hmatch.
    reflexivity.
  - intros Hne served Hserved.
    destruct (handler_serve lib path modTime fs r Hne Hserved)
      as (hd & Hh & Hetag & Hlm).
    exists hd. cbv zeta. split; [| split; [exact Hetag | split; [exact Hlm |]]].
    + rewrite Hreply, Hh. reflexivity.
    + intros Hkeep H200. split.
      * rewrite (Hkeep _ _ _ _ _ "ETag" H200) by (left; reflexivity).
        exact Hetag.
      * rewrite (Hkeep _ _ _ _ _ "Last-Modified" H200)
          by (right; left; reflexivity).
        exact Hlm.
Qed.

Lemma webcache_conditional_requests_witness :
  let requests :=
    [(SampleWeb.atStartup, SampleWeb.conditional SampleWeb.startupETag);
     (SampleWeb.atStartup, SampleWeb.plain)] in
  exists replies,
    webcache.main SampleWeb.lib SampleWeb.typedPath SampleWeb.atStartup
                  requests = inr replies /\
    nth_error replies 0 = Some (notModified, []) /\
    (exists reply,
        nth_error replies 1 = Some (reply, [webcache.Opened SampleWeb.isoPath])
        /\ webcache.Get (webcache.ReplyHeader reply) "ETag"
           = SampleWeb.startupETag).
Proof.
  cbv zeta. eexists. split; [reflexivity |].
  destruct (@webcache_conditional_requests SampleWeb.lib SampleWeb.typedPath
              SampleWeb.atStartup
              [(SampleWeb.atStartup,
                SampleWeb.conditional SampleWeb.startupETag);
               (SampleWeb.atStartup, SampleWeb.plain)] _ eq_refl)
    as (path & file & data & modTime & Hfile & Hdata & Hmod & Hreq).
  vm_compute in Hfile.
  destruct (String.eqb path SampleWeb.isoPath) eqn:Epath;
    [| vm_compute in Epath; rewrite Epath in Hfile; discriminate].
  vm_compute in Epath. rewrite Epath in Hfile.
  injection Hfile as <-. vm_compute in Hdata. injection Hdata as <-.
  split.
  - destruct (Hreq 0 _ _ eq_refl eq_refl) as [H304 _].
    apply H304. reflexivity.
  - eexists. split; [reflexivity | reflexivity].
Defined.

(** C10.  The ETag and the modification time are computed once, from the
    file system found at startup, and every reply is computed from these
    two values, whatever the file system is by then: a request for the
    served path that carries the startup ETag is answered 304 without
    the file being opened. *)
Theorem webcache_etag_fixed_at_startup lib stdin fs0 requests replies :
  webcache.main lib stdin fs0 requests = inr replies ->
  exists path etag modTime,
    webcache.calculateETag lib fs0 path = inr (etag, modTime) /\
    replies =
      map (fun q => webcache.dispatch lib path etag modTime (fst q) (snd q))
          requests /\
    forall fs r,
      webcache.ReqPath r = webcache.servedPath ->
      webcache.Get (webcache.ReqHeader r) "If-None-Match" = etag ->
      webcache.dispatch lib path etag modTime fs r = (notModified, []).
Proof.
  intros Hmain.
  destruct (main_inv lib _ _ _ Hmain) as (path & etag & modTime & Hcalc & ->).
  exists path, etag, modTime. split; [exact Hcalc |]. split; [reflexivity |].
  intros fs r Hpath Hmatch.
  destruct (calculateETag_inv lib _ _ Hcalc) as (file & data & _ & _ & _ & ->).
  unfold webcache.dispatch. rewrite Hpath, String.eqb_refl.
  apply handler_match. exact Hmatch.
Qed.

Lemma webcache_etag_fixed_at_startup_witness :
  let requests :=
    [(SampleWeb.rebuilt, SampleWeb.conditional SampleWeb.startupETag)] in
  webcache.main SampleWeb.lib SampleWeb.typedPath SampleWeb.atStartup requests
  = inr [(notModified, [])] /\
  fst (webcache.handler SampleWeb.lib SampleWeb.isoPath
         (etagOf SampleWeb.lib "second image!") 1 SampleWeb.rebuilt
         (SampleWeb.conditional SampleWeb.startupETag)) <> notModified /\
  exists path etag modTime,
    webcache.calculateETag SampleWeb.lib SampleWeb.atStartup path
    = inr (etag, modTime) /\
    [(notModified, @nil webcache.FsEvent)] =
      map (fun q => webcache.dispatch SampleWeb.lib path etag modTime
                      (fst q) (snd q)) requests /\
    forall fs r,
      webcache.ReqPath r = webcache.servedPath ->
      webcache.Get (webcache.ReqHeader r) "If-None-Match" = etag ->
      webcache.dispatch SampleWeb.lib path etag modTime fs r
      = (notModified, []).
Proof.
  cbv zeta. split; [reflexivity |]. split; [vm_compute; discriminate |].
  apply (@webcache_etag_fixed_at_startup SampleWeb.lib SampleWeb.typedPath
           SampleWeb.atStartup
           [(SampleWeb.rebuilt, SampleWeb.conditional SampleWeb.startupETag)]
           [(notModified, [])]).
  reflexivity.
Defined.

(** *** The theorems at work on the sample world *)

(** RemoteCd is refused, VirtualCd is accepted, Cd is never tried. *)
Example SetVirtualCDBootEnhanced_second_target :
  let c := app.idrac Sample.theApp in
  let run :=
    idrac.SetVirtualCDBootEnhanced Sample.lib (Sample.acceptsOnly "VirtualCd")
                                   c [] in
  outcome run = Val None /\
  requestsBy "PATCH" (events run) =
    [(bootRequest c "RemoteCd", false); (bootRequest c "VirtualCd", true)].
Proof. vm_compute. split; reflexivity. Qed.


Lemma ManageVirtualMediaBootProcess_eject_soft_insert_fatal_witness :
  let run :=
    idrac.ManageVirtualMediaBootProcess Sample.lib Sample.refusesInsert
      (app.idrac Sample.theApp) (ISOURL (Remote Sample.cfg)) [] in
  outcome run =
    Val (Some (Errorf "failed to insert virtual media: %w"
      [ArgE (Errorf "failed to insert virtual media, status code: %d"
                    [ArgD 500])])) /\
  requestsBy "PATCH" (events run) = [] /\
  filter isResetCommand (events run) = [].
Proof.
  cbv zeta.
  destruct (ManageVirtualMediaBootProcess_eject_soft_insert_fatal
              Sample.lib Sample.refusesInsert (app.idrac Sample.theApp)
              (ISOURL (Remote Sample.cfg)) [])
    as (e1 & evE & rI & evI & post & HE & HI & _ & Himp).
  vm_compute in HE. injection HE as <- <-.
  vm_compute in HI. injection HI as <- <-.
  destruct (Himp _ eq_refl) as (Ho & _ & Hp & Hr).
  split; [exact Ho |]. split; [exact Hp | exact Hr].
Defined.

(* ================================================================== *)
(** * Further properties of the code                                   *)
(* ================================================================== *)

(** *** Package config *)

Lemma eqb_empty_false s : String.eqb s EmptyString = false <-> s <> EmptyString.
Proof. apply String.eqb_neq. Qed.

(** X1.  Validate returns nil exactly when the seven required fields (the
    controller address, user name and password, the OpenShift version
    and cluster name, the remote host and user) are all non-empty; it
    looks at nothing else, so the configuration that DefaultConfig
    builds is rejected for its empty password whatever HOME is. *)
Theorem Validate_accepts_iff c :
  (config.Validate c = None <->
   IP (IDRAC c) <> EmptyString /\
   Username (IDRAC c) <> EmptyString /\
   Password (IDRAC c) <> EmptyString /\
   Version (OpenShift c) <> EmptyString /\
   ClusterName (OpenShift c) <> EmptyString /\
   Host (Remote c) <> EmptyString /\
   User (Remote c) <> EmptyString) /\
  (forall home,
      config.Validate (config.DefaultConfig home)
      = Some (Errorf "idrac.password is required" [])).
Proof.
  split; [| reflexivity].
  unfold config.Validate.
  destruct (String.eqb (IP (IDRAC c)) EmptyString) eqn:E1;
    [apply String.eqb_eq in E1; split; [discriminate | tauto] |].
  destruct (String.eqb (Username (IDRAC c)) EmptyString) eqn:E2;
    [apply String.eqb_eq in E2; split; [discriminate | tauto] |].
  destruct (String.eqb (Password (IDRAC c)) EmptyString) eqn:E3;
    [apply String.eqb_eq in E3; split; [discriminate | tauto] |].
  destruct (String.eqb (Version (OpenShift c)) EmptyString) eqn:E4;
    [apply String.eqb_eq in E4; split; [discriminate | tauto] |].
  destruct (String.eqb (ClusterName (OpenShift c)) EmptyString) eqn:E5;
    [apply String.eqb_eq in E5; split; [discriminate | tauto] |].
  destruct (String.eqb (Host (Remote c)) EmptyString) eqn:E6;
    [apply String.eqb_eq in E6; split; [discriminate | tauto] |].
  destruct (String.eqb (User (Remote c)) EmptyString) eqn:E7;
    [apply String.eqb_eq in E7; split; [discriminate | tauto] |].
  apply String.eqb_neq in E1, E2, E3, E4, E5, E6, E7. tauto.
Qed.

Lemma length_append s1 s2 :
  String.length (s1 ++ s2)%string = String.length s1 + String.length s2.
Proof. induction s1 as [| c s1 IH]; cbn; congruence. Qed.

Lemma substring_prefix p s :
  String.substring 0 (String.length p) (p ++ s)%string = p.
Proof. induction p as [| c p IH]; cbn; [destruct s; reflexivity | congruence]. Qed.

Lemma dropSuffixBytes_append p suffix :
  GoStrings.dropSuffixBytes (p ++ suffix)%string (String.length suffix) = Some p.
Proof.
  unfold GoStrings.dropSuffixBytes. rewrite length_append.
  destruct (Nat.ltb_spec (String.length p + String.length suffix)
                         (String.length suffix)) as [H | H]; [lia |].
  replace (String.length p + String.length suffix - String.length suffix)
    with (String.length p) by lia.
  rewrite substring_prefix. reflexivity.
Qed.

(** X2.  GetSSHKeyPrivatePath drops the last four bytes of the public key
    path, whatever they are (for a path ending in ".pub" this is the
    private key path), and panics on a path shorter than four bytes;
    CheckSSHKey then panics right after its first log line, before any
    file is looked at or any command is run. *)
Theorem GetSSHKeyPrivatePath_drops_four_bytes c env h :
  (forall p suffix,
      SSHKeyPath (Paths c) = (p ++ suffix)%string ->
      String.length suffix = 4 ->
      config.GetSSHKeyPrivatePath c h = (Val p, [])) /\
  (String.length (SSHKeyPath (Paths c)) < 4 ->
   exists msg,
     config.GetSSHKeyPrivatePath c h = (Panic msg, []) /\
     ssh.CheckSSHKey env {| ssh.config := c |} h
     = (Panic msg, [EvLog LInfo "Checking SSH key..." []])).
Proof.
  unfold config.GetSSHKeyPrivatePath. split.
  - intros p suffix Hp Hlen. rewrite Hp, <- Hlen, dropSuffixBytes_append.
    reflexivity.
  - intros Hshort. unfold ssh.CheckSSHKey, config.GetSSHKeyPrivatePath.
    cbn [ssh.config]. unfold GoStrings.dropSuffixBytes.
    destruct (Nat.ltb_spec (String.length (SSHKeyPath (Paths c))) 4)
      as [_ | H]; [| lia].
    eexists. split; reflexivity.
Qed.

Lemma GetSSHKeyPrivatePath_drops_four_bytes_witness :
  config.GetSSHKeyPrivatePath Sample.cfg [] = (Val "/root/.ssh/id_ed25519", []).
Proof.
  destruct (GetSSHKeyPrivatePath_drops_four_bytes Sample.cfg Sample.happy [])
    as [H _].
  apply (H "/root/.ssh/id_ed25519" ".pub"); reflexivity.
Defined.

(** *** Package ssh *)

(** X3.  With a public key path that ends in ".pub", CheckSSHKey looks at
    the private key path once; when os.Stat does not report it missing
    the function returns nil and runs no command, and when it is reported
    missing exactly one command is run, ssh-keygen on the private key
    path, on whose error the result depends. *)
Theorem CheckSSHKey_generates_only_when_missing env m h privatePath :
  SSHKeyPath (Paths (ssh.config m)) = (privatePath ++ ".pub")%string ->
  let run := ssh.CheckSSHKey env m h in
  let st :=
    os_Stat env (h ++ [EvLog LInfo "Checking SSH key..." []]) privatePath in
  filter (fun e => match e with EvStat _ _ => true | _ => false end)
         (events run) = [EvStat privatePath st] /\
  (IsNotExist st = false ->
   outcome run = Val None /\ commands (events run) = []) /\
  (IsNotExist st = true ->
   exists err,
     commands (events run) = [(keygenArgs privatePath, err)] /\
     (outcome run = Val None <-> err = None)).
Proof.
  intros Hpath. cbv zeta.
  unfold ssh.CheckSSHKey, ssh.generateSSHKey, config.GetSSHKeyPrivatePath.
  rewrite Hpath.
  change 4 with (String.length ".pub"). rewrite dropSuffixBytes_append.
  unfold bind, osStat. cbn -[keygenArgs]. rewrite !app_nil_r.
  destruct (os_Stat env (h ++ [EvLog LInfo "Checking SSH key..." []])
                    privatePath) as [| | e]; cbn -[keygenArgs].
  - split; [reflexivity |]. split; [intros _; split; reflexivity |].
    discriminate.
  - match goal with
    | |- context [exec_CombinedOutput env ?h0 ?argv] =>
        destruct (exec_CombinedOutput env h0 argv) as [out [err |]]
    end; cbn -[keygenArgs];
      (split; [reflexivity |]); (split; [discriminate |]); intros _;
      eexists; (split; [reflexivity |]); split; intros H; congruence.
  - split; [reflexivity |]. split; [intros _; split; reflexivity |].
    discriminate.
Qed.

Lemma CheckSSHKey_generates_only_when_missing_witness :
  let env := Sample.without "/root/.ssh/id_ed25519" in
  exists err,
    commands (events (ssh.CheckSSHKey env (app.sshManager Sample.theApp) []))
    = [(keygenArgs "/root/.ssh/id_ed25519", err)].
Proof.
  cbv zeta.
  destruct (@CheckSSHKey_generates_only_when_missing
              (Sample.without "/root/.ssh/id_ed25519")
              (app.sshManager Sample.theApp) [] "/root/.ssh/id_ed25519"
              eq_refl) as (_ & _ & H).
  destruct (H eq_refl) as (err & Hc & _). exists err. exact Hc.
Defined.

(** *** Package openshift: the release digest *)

(** X4.  findPullFrom returns the third field of the first line that
    mentions "Pull From:" and has at least three fields; every line
    before it yields nothing, and the result is empty exactly when no
    line yields a digest.  An empty command output therefore makes
    getReleaseDigest return its "could not find" error. *)
Theorem findPullFrom_first_match lib :
  (forall lines,
      match openshift.findPullFrom lib lines with
      | Some digest =>
          exists before line after,
            lines = before ++ line :: after /\
            yieldsDigest lib line digest /\
            Forall (yieldsNothing lib) before
      | None => Forall (yieldsNothing lib) lines
      end) /\
  (forall env i h,
      exec_CombinedOutput env h (releaseInfoArgs i) = (EmptyString, None) ->
      outcome (openshift.getReleaseDigest lib env i h)
      = Val (EmptyString, Some digestNotFound)).
Proof.
  split.
  - induction lines as [| line rest IH]; cbn [openshift.findPullFrom].
    + constructor.
    + destruct (GoStrings.Contains line "Pull From:") eqn:Ec.
      * destruct (strings_Fields lib line) as [| f1 [| f2 [| f3 fs]]] eqn:Ef.
        -- destruct (openshift.findPullFrom lib rest) as [d |].
           ++ destruct IH as (before & l & after & -> & Hy & Hb).
              exists (line :: before), l, after. repeat split; try apply Hy.
              constructor; [right; rewrite Ef; cbn; lia | exact Hb].
           ++ constructor; [right; rewrite Ef; cbn; lia | exact IH].
        -- destruct (openshift.findPullFrom lib rest) as [d |].
           ++ destruct IH as (before & l & after & -> & Hy & Hb).
              exists (line :: before), l, after. repeat split; try apply Hy.
              constructor; [right; rewrite Ef; cbn; lia | exact Hb].
           ++ constructor; [right; rewrite Ef; cbn; lia | exact IH].
        -- destruct (openshift.findPullFrom lib rest) as [d |].
           ++ destruct IH as (before & l & after & -> & Hy & Hb).
              exists (line :: before), l, after. repeat split; try apply Hy.
              constructor; [right; rewrite Ef; cbn; lia | exact Hb].
           ++ constructor; [right; rewrite Ef; cbn; lia | exact IH].
        -- exists [], line, rest. split; [reflexivity |]. split; [| constructor].
           split; [exact Ec | rewrite Ef; reflexivity].
      * destruct (openshift.findPullFrom lib rest) as [d |].
        -- destruct IH as (before & l & after & -> & Hy & Hb).
           exists (line :: before), l, after. repeat split; try apply Hy.
           constructor; [left; exact Ec | exact Hb].
        -- constructor; [left; exact Ec | exact IH].
  - intros env i h Hexec. unfold openshift.getReleaseDigest, bind.
    unfold execCombinedOutput. fold (releaseInfoArgs i). rewrite Hexec.
    reflexivity.
Qed.

Lemma findPullFrom_first_match_witness :
  outcome (openshift.getReleaseDigest Sample.lib
             {| http_Do := http_Do Sample.happy;
                ctx_Err := ctx_Err Sample.happy;
                os_Stat := os_Stat Sample.happy;
                os_Call := os_Call Sample.happy;
                exec_CombinedOutput := fun _ _ => (EmptyString, None) |}
             (app.installer Sample.theApp) [])
  = Val (EmptyString, Some digestNotFound).
Proof.
  destruct (findPullFrom_first_match Sample.lib) as [_ H].
  apply H. reflexivity.
Defined.

(** *** Package idrac: one request per call *)

Ltac client_cases :=
  unfold idrac.makeRequest;
  match goal with
  | |- context [http_NewRequest ?l ?m ?u] =>
      destruct (http_NewRequest l m u) as [? |]
  end;
  cbn; unfold bind; cbn;
  repeat match goal with
         | |- context [http_Do ?e ?h ?r] =>
             let resp := fresh "resp" in
             destruct (http_Do e h r) as [? | resp]; cbn
         | |- context [if negb (StatusCode ?resp =? StatusOK)%Z then _ else _] =>
             destruct (StatusCode resp =? StatusOK)%Z eqn:?; cbn
         | |- context [if idrac.notAccepted ?x then _ else _] =>
             destruct (idrac.notAccepted x) eqn:?; cbn
         | |- context [match RespBody ?resp with _ => _ end] =>
             destruct (RespBody resp); cbn
         | |- context [if negb (GoStrings.Contains ?b ?s) then _ else _] =>
             destruct (GoStrings.Contains b s); cbn
         | |- context [match ?f ?body with inl _ => _ | inr _ => _ end] =>
             destruct (f body); cbn
         end.


Lemma notAccepted_false_iff code :
  idrac.notAccepted code = false <-> In code [StatusOK; StatusAccepted].
Proof.
  unfold idrac.notAccepted, StatusOK, StatusAccepted. cbn [In].
  destruct (Z.eqb_spec code 200); destruct (Z.eqb_spec code 202); cbn;
    split; intros H; try reflexivity; try discriminate; try lia; auto.
Qed.

Lemma statusOK_iff code :
  (code =? StatusOK)%Z = true <-> In code [StatusOK].
Proof.
  unfold StatusOK. cbn [In]. destruct (Z.eqb_spec code 200); split;
    intros H; try reflexivity; try discriminate; try lia; auto.
Qed.

Ltac acceptance :=
  unfold succeeds_iff_answered, requestOf, bootRequest;
  client_cases;
  (split;
   [ intros H; first [discriminate H | eexists; split; [reflexivity |]]
   | intros (code & H & Hin);
     first [discriminate H | injection H as <- | idtac] ]);
  repeat match goal with
         | E : idrac.notAccepted _ = false |- _ =>
             apply notAccepted_false_iff in E
         | E : idrac.notAccepted _ = true |- _ =>
             apply not_false_iff_true in E;
             rewrite notAccepted_false_iff in E
         | E : (_ =? StatusOK)%Z = true |- _ => apply statusOK_iff in E
         | E : (_ =? StatusOK)%Z = false |- _ =>
             apply not_true_iff_false in E; rewrite statusOK_iff in E
         end;
  try assumption; try contradiction; try reflexivity.

(** X6.  Which answers the commands of the client accept.  RestartSystem,
    EjectVirtualMedia and InsertVirtualMedia return nil exactly when
    their one POST is answered 200 or 202; SetVirtualCDBoot and
    SetHDDBoot return nil exactly when their one PATCH is answered 200
    (a 202 is an error for them).  The request carries the reset type
    ForceRestart, an empty object, the image URL given, and the boot
    target Cd or Hdd to be applied once. *)
Theorem client_commands_accepted_answers lib env c isoURL h :
  succeeds_iff_answered
    (requestOf c "POST" idrac.ResetPath
               (BodyReset {| ResetType := "ForceRestart" |}))
    [StatusOK; StatusAccepted] (idrac.RestartSystem lib env c h) /\
  succeeds_iff_answered
    (requestOf c "POST" idrac.EjectPath BodyEmptyMap)
    [StatusOK; StatusAccepted] (idrac.EjectVirtualMedia lib env c h) /\
  succeeds_iff_answered
    (requestOf c "POST" idrac.InsertPath
               (BodyVirtualMedia {| Image := isoURL |}))
    [StatusOK; StatusAccepted] (idrac.InsertVirtualMedia lib env c isoURL h) /\
  succeeds_iff_answered (bootRequest c "Cd") [StatusOK]
    (idrac.SetVirtualCDBoot lib env c h) /\
  succeeds_iff_answered (bootRequest c "Hdd") [StatusOK]
    (idrac.SetHDDBoot lib env c h).
Proof.
  split; [| split; [| split; [| split]]].
  - unfold idrac.RestartSystem. acceptance.
  - unfold idrac.EjectVirtualMedia. acceptance.
  - unfold idrac.InsertVirtualMedia. acceptance.
  - unfold idrac.SetVirtualCDBoot. acceptance.
  - unfold idrac.SetHDDBoot. acceptance.
Qed.

(** *** Package idrac: power on and power off, to the end *)

Lemma resetTypes_app e1 e2 :
  resetTypes (e1 ++ e2) = resetTypes e1 ++ resetTypes e2.
Proof.
  induction e1 as [| e e1 IH]; [reflexivity |].
  destruct e; cbn; auto. destruct (Payload req); cbn; congruence.
Qed.

Lemma resetTypes_none evs :
  Forall (fun e => isResetCommand e = false) evs -> resetTypes evs = [].
Proof.
  induction 1 as [| e evs He _ IH]; [reflexivity |].
  destruct e; cbn in *; auto. destruct (Payload req); auto. discriminate.
Qed.

Lemma waitLoop_no_reset lib env c expected failureLog failure success :
  forall remaining,
    emits_only (fun e => isResetCommand e = false)
      (idrac.waitLoop lib env c expected failureLog failure success remaining).
Proof.
  induction remaining as [| r IH]; cbn [idrac.waitLoop]; prove_emits;
    exact IH.
Qed.

Lemma GetSystemPowerState_no_reset lib env c :
  emits_only (fun e => isResetCommand e = false)
             (idrac.GetSystemPowerState lib env c).
Proof. prove_emits. Qed.

(** The waiting functions send no reset command and return nil only
    after reading the expected state. *)
Lemma wait_reaches lib env c expected failureLog failure success first h :
  let run :=
    (LogInfo first [] ;;
     idrac.waitLoop lib env c expected failureLog failure success
                    idrac.maxAttempts) h in
  resetTypes (events run) = [] /\
  (outcome run = Val None ->
   exists before, observations (events run) = before ++ [expected]).
Proof.
  cbv zeta. unfold bind. cbn -[idrac.waitLoop idrac.maxAttempts].
  match goal with
  | |- context [idrac.waitLoop ?a ?b ?c ?d ?e ?f ?g ?r0 ?h0] =>
      pose proof (waitLoop_polls a b c d e f g r0 h0) as Hp;
      pose proof (waitLoop_no_reset a b c d e f g r0 h0) as Hr;
      destruct (idrac.waitLoop a b c d e f g r0 h0) as [o evr]
  end.
  cbn [outcome events fst snd] in *. apply resetTypes_none in Hr.
  split; [cbn; exact Hr |].
  intros Ho. destruct Hp as (_ & _ & _ & Hcases).
  destruct Hcases as [(_ & (before & Eb & _) & _)
                     | [(Ho' & _) | (d & Ho' & _)]].
  - exists before. cbn. exact Eb.
  - rewrite Ho in Ho'. discriminate.
  - rewrite Ho in Ho'. discriminate.
Qed.

Lemma GetSystemPowerState_reads lib env c h :
  exists s err evs,
    idrac.GetSystemPowerState lib env c h = (Val (s, err), evs) /\
    observations evs = match err with None => [s] | Some _ => [] end /\
    resetTypes evs = [].
Proof.
  destruct (GetSystemPowerState_obs lib env c h) as (s & err & evs & E & Ho).
  exists s, err, evs. split; [exact E |]. split; [exact Ho |].
  pose proof (GetSystemPowerState_no_reset lib env c h) as Hq.
  rewrite E in Hq. apply resetTypes_none. exact Hq.
Qed.

Ltac power_to_the_end lib env c :=
  intros h; unfold idrac.PowerOnSystem, idrac.PowerOffSystem;
  unfold idrac.WaitForSystemPowerOn, idrac.WaitForSystemPowerOff;
  unfold bind at 1; cbn [LogInfo logf emit];
  let s := fresh "s" in
  let err := fresh "err" in
  let evs := fresh "evs" in
  let EGet := fresh "EGet" in
  let Hobs := fresh "Hobs" in
  let Hreset := fresh "Hreset" in
  match goal with
  | |- context [bind (idrac.GetSystemPowerState lib env c) _ ?h0] =>
      destruct (GetSystemPowerState_reads lib env c h0)
        as (s & err & evs & EGet & Hobs & Hreset)
  end;
  unfold bind at 1; rewrite EGet; cbn beta iota zeta;
  destruct err as [? |];
  [ cbn; split;
    [ left; cbn; rewrite ?resetTypes_app, ?Hreset; reflexivity | cbn; discriminate ]
  | ];
  match goal with
  | |- context [if String.eqb s ?t then _ else _] =>
      let Es := fresh "Es" in
      destruct (String.eqb s t) eqn:Es;
      [ apply String.eqb_eq in Es; subst s; unfold bind; cbn; split;
        [ left; cbn; rewrite ?resetTypes_app, ?Hreset; reflexivity
        | intros _; exists []; cbn; rewrite ?observations_app, ?Hobs; reflexivity ]
      | ]
  end;
  unfold idrac.makeRequest;
  match goal with
  | |- context [http_NewRequest ?l ?m ?u] =>
      destruct (http_NewRequest l m u) as [? |]
  end;
  [ unfold bind; cbn; split;
    [ left; cbn; rewrite ?resetTypes_app, ?Hreset; reflexivity | cbn; discriminate ]
  | ];
  unfold bind at 1; cbn [LogDebug logf emit];
  unfold bind at 1; cbn [LogDebug logf emit idrac.isNilBody];
  unfold bind at 1; cbn [LogDebug logf emit];
  unfold bind at 1, httpDo at 1;
  match goal with
  | |- context [http_Do env ?h0 ?r] =>
      let resp := fresh "resp" in
      destruct (http_Do env h0 r) as [? | resp];
      [ unfold bind; cbn; split;
        [ right; cbn; rewrite ?resetTypes_app, ?Hreset; reflexivity | cbn; discriminate ]
      | cbn beta iota zeta; unfold bind at 1; cbn [ret];
        destruct (idrac.notAccepted (StatusCode resp));
        [ unfold bind; cbn; split;
          [ right; cbn; rewrite ?resetTypes_app, ?Hreset; reflexivity
          | cbn; discriminate ]
        | ] ]
  end.

Lemma ends_with_app (A : Type) (l1 l2 : list A) (t : A) :
  (exists before, l2 = before ++ [t]) ->
  exists before, l1 ++ l2 = before ++ [t].
Proof.
  intros [before E]. exists (l1 ++ before). rewrite E. apply app_assoc.
Qed.

Ltac after_the_command :=
  unfold bind at 1; cbn [LogSuccess logf emit];
  match goal with
  | |- context [bind (LogInfo ?first [])
                  (fun _ => idrac.waitLoop ?l ?e ?c ?x ?fl ?f ?s
                                           idrac.maxAttempts) ?h0] =>
      let Hw := fresh "Hw" in
      let o := fresh "o" in
      let evw := fresh "evw" in
      let Hwr := fresh "Hwr" in
      let Hwo := fresh "Hwo" in
      pose proof (@wait_reaches l e c x fl f s first h0) as Hw;
      cbv zeta in Hw;
      destruct (bind (LogInfo first [])
                     (fun _ => idrac.waitLoop l e c x fl f s idrac.maxAttempts)
                     h0) as [o evw];
      cbn [events outcome fst snd] in Hw; destruct Hw as [Hwr Hwo];
      split; cbn [events outcome fst snd];
      [ right; rewrite !resetTypes_app, Hwr;
        match goal with
        | Hr : resetTypes _ = [] |- _ => rewrite Hr
        end; reflexivity
      | intros Ho; specialize (Hwo Ho);
        repeat (rewrite observations_app; apply ends_with_app);
        exact Hwo ]
  end.


Lemma PowerOffSystem_reaches lib env c : forall h,
  reaches_state "Off" "ForceOff" (idrac.PowerOffSystem lib env c h).
Proof. power_to_the_end lib env c. after_the_command. Qed.


(** *** Package app: cleanup *)

Ltac sending :=
  unfold sendable, ejectRequest, requestOf, bootRequest;
  cbn [filter Method URL]; client_cases.

Lemma EjectVirtualMedia_sends lib env c h :
  exists e evs,
    idrac.EjectVirtualMedia lib env c h = (Val e, evs) /\
    httpRequests evs = sendable lib [ejectRequest c] /\
    resetTypes evs = [].
Proof.
  unfold idrac.EjectVirtualMedia. sending;
    eexists; eexists; (split; [reflexivity |]); split; reflexivity.
Qed.

Lemma SetHDDBoot_sends lib env c h :
  exists e evs,
    idrac.SetHDDBoot lib env c h = (Val e, evs) /\
    httpRequests evs = sendable lib [bootRequest c "Hdd"] /\
    resetTypes evs = [].
Proof.
  unfold idrac.SetHDDBoot. sending;
    eexists; eexists; (split; [reflexivity |]); split; reflexivity.
Qed.

Lemma sendable_app lib l1 l2 :
  sendable lib (l1 ++ l2) = sendable lib l1 ++ sendable lib l2.
Proof. apply filter_app. Qed.

Lemma PowerOffSystem_resets lib env c h :
  exists e evs,
    idrac.PowerOffSystem lib env c h = (Val e, evs) /\
    (resetTypes evs = [] \/ resetTypes evs = ["ForceOff"]).
Proof.
  assert (Hnp : never_panics (idrac.PowerOffSystem lib env c)) by prove_np.
  destruct (Hnp h) as [e He].
  pose proof (PowerOffSystem_reaches lib env c h) as [Hr _].
  destruct (idrac.PowerOffSystem lib env c h) as [r evs].
  cbn [outcome events fst snd] in *. subst r.
  exists e, evs. split; [reflexivity | exact Hr].
Qed.

Lemma sendable_two lib r1 r2 :
  sendable lib [r1; r2] = sendable lib [r1] ++ sendable lib [r2].
Proof. apply (filter_app _ [r1] [r2]). Qed.

(** X8.  cleanup never fails and never stops half way: it tries to eject
    the image and then to restore the boot from disk even when the
    eject was refused; without the power-off option it sends no other
    request and no reset command, and with it the only reset command it
    may send is a ForceOff. *)
Theorem cleanup_always_restores lib env a powerOff h :
  cleanup_contract lib (app.idrac a) powerOff
                   (app.cleanup lib env a powerOff h).
Proof.
  unfold cleanup_contract. split; [apply cleanup_returns_nil |].
  set (run := app.cleanup lib env a powerOff h).
  assert (Hrun : run = app.cleanup lib env a powerOff h) by reflexivity.
  clearbody run. unfold app.cleanup in Hrun.
  unfold bind at 1 in Hrun; cbn [LogInfo logf emit] in Hrun.
  match type of Hrun with
  | context [bind (idrac.EjectVirtualMedia ?l ?e ?c) _ ?h0] =>
      destruct (EjectVirtualMedia_sends l e c h0)
        as (e1 & ev1 & E1 & Hreq1 & Hres1)
  end.
  unfold bind at 1 in Hrun; rewrite E1 in Hrun; cbn beta iota zeta in Hrun.
  clear E1.
  destruct e1 as [err1 |];
    (unfold bind at 1 in Hrun; cbn [LogWarn logf emit ret] in Hrun;
     match type of Hrun with
     | context [bind (idrac.SetHDDBoot ?l ?e ?c) _ ?h0] =>
         destruct (SetHDDBoot_sends l e c h0)
           as (e2 & ev2 & E2 & Hreq2 & Hres2)
     end;
     unfold bind at 1 in Hrun; rewrite E2 in Hrun;
     cbn beta iota zeta in Hrun; clear E2;
     destruct e2 as [err2 |];
     (unfold bind at 1 in Hrun; cbn [LogWarn logf emit ret] in Hrun;
      destruct powerOff;
      [ unfold bind at 1 in Hrun; unfold bind at 1 in Hrun;
        match type of Hrun with
        | context [idrac.PowerOffSystem ?l ?e ?c ?h0] =>
            destruct (PowerOffSystem_resets l e c h0)
              as (e3 & ev3 & E3 & Hres3)
        end;
        rewrite E3 in Hrun; cbn beta iota zeta in Hrun; clear E3;
        destruct e3 as [err3 |];
        (unfold bind in Hrun; cbn in Hrun; subst run;
         cbn [events snd]; rewrite sendable_two;
         split;
         [ eexists; split;
           [ cbn [httpRequests app];
             rewrite !httpRequests_app, Hreq1, ?Hreq2; cbn [httpRequests app];
             rewrite ?httpRequests_app, ?Hreq2; cbn [httpRequests app];
             rewrite <- ?app_assoc; reflexivity
           | discriminate ]
         | cbn [resetTypes app];
           rewrite !resetTypes_app, Hres1, ?Hres2; cbn [resetTypes app];
           rewrite ?resetTypes_app, ?Hres2; cbn [resetTypes app];
           rewrite ?resetTypes_app; cbn [resetTypes app];
           rewrite ?app_nil_r;
           destruct Hres3 as [-> | ->]; [left | right; split]; reflexivity ])
      | unfold bind in Hrun; cbn in Hrun; subst run;
        cbn [events snd]; rewrite sendable_two;
        split;
        [ exists []; split; [| reflexivity];
          cbn [httpRequests app];
          rewrite !httpRequests_app, Hreq1, ?Hreq2; cbn [httpRequests app];
          rewrite ?httpRequests_app, ?Hreq2; cbn [httpRequests app];
          rewrite ?app_nil_r; reflexivity
        | left; cbn [resetTypes app];
          rewrite !resetTypes_app, Hres1, ?Hres2; cbn [resetTypes app];
          rewrite ?resetTypes_app, ?Hres2; reflexivity ] ])).
Qed.

(** *** Package app: what a successful installation has done *)




Lemma oscalls_app e1 e2 : oscalls (e1 ++ e2) = oscalls e1 ++ oscalls e2.
Proof.
  induction e1 as [| e e1 IH]; [reflexivity |].
  destruct e; cbn; congruence.
Qed.

Lemma quiet_events evs :
  Forall (fun e => actsOutside e = false) evs ->
  commands evs = [] /\ oscalls evs = [] /\ resetTypes evs = [].
Proof.
  induction 1 as [| e evs He _ (IH1 & IH2 & IH3)]; [repeat split |].
  destruct e; cbn in *; try discriminate; auto.
  destruct (Payload req); try discriminate; auto.
Qed.

Lemma quiet_run {A} (m : M A) h r evs :
  emits_only (fun e => actsOutside e = false) m ->
  m h = (r, evs) ->
  commands evs = [] /\ oscalls evs = [] /\ resetTypes evs = [].
Proof.
  intros Hm E. specialize (Hm h). rewrite E in Hm. apply quiet_events.
  exact Hm.
Qed.
















Lemma cleanup_quiet lib env a :
  emits_only (fun e => actsOutside e = false) (app.cleanup lib env a false).
Proof. unfold app.cleanup. cbn iota. prove_emits. Qed.

#[local] Hint Resolve cleanup_quiet : emits.




(** *** Package app: when the program can panic *)





#[local] Hint Unfold app.getStatus app.getSystemInfo app.ejectMedia
  app.insertMedia app.setBootCD app.setVirtualCDBootEnhanced
  app.getVirtualMediaInfo app.getLifecycleControllerInfo app.setBootHDD
  app.restart idrac.GetLifecycleControllerInfo : code.

Ltac dispatch :=
  lazy beta iota delta [app.Run String.eqb Ascii.eqb Bool.eqb andb].



(** *** Package app: what the subcommands may touch *)

Ltac local_goals :=
  lazymatch goal with
  | |- exists _, _ =>
      eexists; split;
      [ cbn [hd In]; repeat first [left; reflexivity | right] | reflexivity ]
  | |- _ /\ _ => split; reflexivity
  | |- _ => first [exact I | reflexivity]
  end.

(** X11.  What an installation may do to the machine it runs on,
    whether it succeeds or not: the only directory it removes or
    creates is the work directory, the only file whose mode it changes
    is the installer, the only variable it sets is KUBECONFIG (to
    auth/kubeconfig under the work directory), and the only programs it
    runs are ssh-keygen, sshpass, oc, cp, scp and the installer. *)
Theorem runInstall_local_footprint lib env cfg :
  emits_only (localAction lib cfg)
             (app.runInstall lib env (app.NewEnhancedApp cfg)).
Proof.
  unfold app.runInstall, app.NewEnhancedApp.
  cbn [app.idrac app.installer app.sshManager app.config].
  prove_emits; cbn [localAction openshift.config ssh.config];
    local_goals.
Qed.

Lemma confined_intro (m : M goerror) h :
  emits_only (fun e => actsOutside e = false) m -> confined (m h).
Proof.
  intros Hm. destruct (m h) as [r evs] eqn:E.
  exact (@quiet_run _ m h r evs Hm E).
Qed.

Lemma reads_events evs :
  Forall (fun e => isRead e = true) evs ->
  Forall (fun req => Method req = "GET") (httpRequests evs).
Proof.
  induction 1 as [| e evs He _ IH]; [constructor |].
  destruct e; cbn in *; auto.
  constructor; [apply String.eqb_eq; exact He | exact IH].
Qed.

Lemma only_reads_intro (m : M goerror) h :
  emits_only (fun e => actsOutside e = false) m ->
  emits_only (fun e => isRead e = true) m -> only_reads (m h).
Proof.
  intros Hq Hr. split; [apply confined_intro; exact Hq |].
  apply reads_events. apply Hr.
Qed.

Lemma local_events evs :
  Forall (fun e => isLocal e = false) evs ->
  commands evs = [] /\ oscalls evs = [].
Proof.
  induction 1 as [| e evs He _ (IH1 & IH2)]; [split; reflexivity |].
  destruct e; cbn in *; try discriminate; auto.
Qed.

Lemma remote_only_intro (m : M goerror) h :
  emits_only (fun e => isLocal e = false) m -> remote_only (m h).
Proof. intros Hm. apply local_events. apply Hm. Qed.

Lemma waitLoop_not_local lib env c expected failureLog failure success :
  forall remaining,
    emits_only (fun e => isLocal e = false)
      (idrac.waitLoop lib env c expected failureLog failure success remaining).
Proof.
  induction remaining as [| r IH]; cbn [idrac.waitLoop]; prove_emits;
    exact IH.
Qed.

#[local] Hint Resolve waitLoop_not_local : emits.

(** X12.  What the subcommands of Run may touch.  status, info,
    virtual-media-info and lifecycle-controller only read: every
    request they send is a GET.  These and eject-media, insert-media,
    set-boot-cd, set-boot-cd-enhanced and set-boot-hdd run no external
    command, change nothing through the os package and never send a
    reset command, so they cannot power-cycle the server.  power-on,
    power-off, restart, manage-virtual-boot and cleanup act on the
    controller only. *)
Theorem Run_subcommands_are_confined
        lib env decode home config_Save fmt_Println a prog rest h :
  let run command :=
    app.Run lib env decode home config_Save fmt_Println a
            (prog :: command :: rest) h in
  Forall (fun command => only_reads (run command)) readingCommands /\
  Forall (fun command => confined (run command))
         (readingCommands ++ mediaCommands) /\
  Forall (fun command => remote_only (run command)) powerCommands.
Proof.
  cbv zeta. unfold readingCommands, mediaCommands, powerCommands.
  cbn [app]. split; [| split];
    repeat apply Forall_cons; try apply Forall_nil; dispatch.
  all: first
         [ apply only_reads_intro; solve [prove_emits]
         | apply confined_intro; solve [prove_emits]
         | apply remote_only_intro; solve [prove_emits] ].
Qed.

(** *** Package idrac: what the reading calls return *)

Ltac read_cases :=
  unfold idrac.makeRequest;
  match goal with
  | |- context [http_NewRequest ?l ?m ?u] =>
      destruct (http_NewRequest l m u) as [? |]
  end;
  cbn; unfold bind; cbn;
  repeat match goal with
         | |- context [http_Do ?e ?h ?r] =>
             let resp := fresh "resp" in
             destruct (http_Do e h r) as [? | resp]; cbn
         | |- context [if negb (StatusCode ?resp =? StatusOK)%Z then _ else _] =>
             destruct (StatusCode resp =? StatusOK)%Z eqn:?; cbn
         | |- context [match RespBody ?resp with _ => _ end] =>
             destruct (RespBody resp) eqn:?; cbn
         | |- context [if negb (GoStrings.Contains ?b ?s) then _ else _] =>
             destruct (GoStrings.Contains b s) eqn:?; cbn
         | |- context [match ?f ?body with inl _ => _ | inr _ => _ end] =>
             destruct (f body) eqn:?; cbn
         end.

Ltac reading :=
  unfold answered200, statusQuery, requestOf;
  read_cases;
  (split;
   [ let H := fresh "H" in
     intros H;
     first [ discriminate H
           | try injection H as <-;
             eexists; split;
             [ eexists; split; [reflexivity |]; split;
               [apply Z.eqb_eq; eassumption | eassumption]
             | eassumption ] ]
   | let H := fresh "H" in
     let Hd := fresh "Hd" in
     let Hs := fresh "Hs" in
     let Hb := fresh "Hb" in
     intros (? & (? & H & Hs & Hb) & Hd);
     first [ discriminate H
           | injection H as <-;
             first [ reflexivity
                   | congruence
                   | apply Z.eqb_eq in Hs; congruence ] ] ]).

Lemma GetSystemInfo_reads lib env c h :
  reads_what_was_sent (statusQuery c) (json_Unmarshal_SystemInfo lib)
                      (idrac.GetSystemInfo lib env c h).
Proof.
  intros a. unfold idrac.GetSystemInfo. reading.
Qed.

Ltac field_reading :=
  unfold answered200, statusQuery, requestOf;
  read_cases;
  (split;
   [ intros ?; split;
     [ let H := fresh "H" in
       intros H;
       first [ discriminate H
             | injection H as <-;
               eexists; eexists; split;
               [ eexists; split; [reflexivity |]; split;
                 [apply Z.eqb_eq; eassumption | eassumption]
               | split; [eassumption | reflexivity] ] ]
     | let H := fresh "H" in
       let Hd := fresh "Hd" in
       let Hs := fresh "Hs" in
       let Hb := fresh "Hb" in
       let Hf := fresh "Hf" in
       intros (? & ? & (? & H & Hs & Hb) & Hd & Hf);
       first [ discriminate H
             | injection H as <-;
               first [ congruence
                     | apply Z.eqb_eq in Hs; congruence ] ] ]
   | let H := fresh "H" in
     intros ? ? H;
     first [discriminate H | injection H as <- _; reflexivity] ]).

(** X13.  What the reading calls of the client return.  GetSystemInfo,
    GetVirtualMediaInfo and GetLifecycleControllerInfo return a value
    exactly when their one GET is answered 200 (a 202 is an error
    here) with a readable body that the decoder accepts, and the value
    is the decoded one; CheckConnectivity returns nil exactly when the
    body of such an answer mentions System.Embedded.1;
    GetSystemPowerState and GetSystemHealth return the PowerState and
    the Health field of the decoded reply, and the empty string along
    with every error. *)
Theorem client_reads_what_was_sent lib env decode c h :
  reads_what_was_sent (statusQuery c) (json_Unmarshal_SystemInfo lib)
                      (idrac.GetSystemInfo lib env c h) /\
  reads_what_was_sent (requestOf c "GET" idrac.VirtualMediaPath BodyNil)
                      (json_Unmarshal_VirtualMediaInfo lib)
                      (idrac.GetVirtualMediaInfo lib env c h) /\
  reads_what_was_sent (requestOf c "GET" idrac.ManagerPath BodyNil) decode
                      (idrac.GetLifecycleControllerInfo lib env decode c h) /\
  (outcome (idrac.CheckConnectivity lib env c h) = Val None <->
   exists body,
     answered200 (statusQuery c) body
                 (events (idrac.CheckConnectivity lib env c h)) /\
     GoStrings.Contains body "System.Embedded.1" = true) /\
  reads_field lib (statusQuery c) PowerState
              (idrac.GetSystemPowerState lib env c h) /\
  reads_field lib (statusQuery c) Health
              (idrac.GetSystemHealth lib env c h).
Proof.
  split; [apply GetSystemInfo_reads |].
  split; [intros a; unfold idrac.GetVirtualMediaInfo; reading |].
  split; [intros a; unfold idrac.GetLifecycleControllerInfo; reading |].
  split; [unfold idrac.CheckConnectivity; reading |].
  split.
  - unfold reads_field, idrac.GetSystemPowerState, idrac.GetSystemInfo.
    field_reading.
  - unfold reads_field, idrac.GetSystemHealth, idrac.GetSystemInfo.
    field_reading.
Qed.

(** *** The web cache: the entity tag *)

Lemma hexDigit_inj n m :
  n < 16 -> m < 16 -> webcache.hexDigit n = webcache.hexDigit m -> n = m.
Proof.
  intros Hn Hm.
  do 16 (destruct n as [| n];
         [ do 16 (destruct m as [| m];
                  [first [reflexivity | discriminate] |]); lia |]).
  lia.
Qed.

Lemma hexDigit_lower n : isLowerHex (webcache.hexDigit n) = true.
Proof.
  do 16 (destruct n as [| n]; [reflexivity |]). reflexivity.
Qed.

Lemma nat_of_ascii_inj a b : nat_of_ascii a = nat_of_ascii b -> a = b.
Proof.
  intros H. rewrite <- (ascii_nat_embedding a), <- (ascii_nat_embedding b).
  rewrite H. reflexivity.
Qed.

Lemma hex_inj a : forall b, webcache.hex a = webcache.hex b -> a = b.
Proof.
  induction a as [| c a IH]; intros [| d b]; cbn [webcache.hex];
    try discriminate; [reflexivity |].
  cbv zeta.
  pose proof (nat_ascii_bounded c) as Hc.
  pose proof (nat_ascii_bounded d) as Hd.
  pose proof (Nat.div_mod_eq (nat_of_ascii c) 16) as Ec.
  pose proof (Nat.div_mod_eq (nat_of_ascii d) 16) as Ed.
  assert (Hqc : nat_of_ascii c / 16 < 16)
    by (apply Nat.Div0.div_lt_upper_bound; lia).
  assert (Hqd : nat_of_ascii d / 16 < 16)
    by (apply Nat.Div0.div_lt_upper_bound; lia).
  assert (Hrc : nat_of_ascii c mod 16 < 16)
    by (apply Nat.mod_upper_bound; lia).
  assert (Hrd : nat_of_ascii d mod 16 < 16)
    by (apply Nat.mod_upper_bound; lia).
  revert Ec Ed Hqc Hqd Hrc Hrd.
  generalize (nat_of_ascii c / 16) (nat_of_ascii c mod 16)
             (nat_of_ascii d / 16) (nat_of_ascii d mod 16).
  intros qc rc qd rd Ec Ed Hqc Hqd Hrc Hrd H.
  injection H as Hhi Hlo Hrest.
  apply hexDigit_inj in Hhi; [| assumption | assumption].
  apply hexDigit_inj in Hlo; [| assumption | assumption].
  f_equal; [| apply IH; exact Hrest].
  apply nat_of_ascii_inj. lia.
Qed.

Lemma hex_length s : String.length (webcache.hex s) = 2 * String.length s.
Proof. induction s as [| c s IH]; cbn [webcache.hex String.length]; lia. Qed.

Lemma hex_lower s :
  forallb isLowerHex (list_ascii_of_string (webcache.hex s)) = true.
Proof.
  induction s as [| c s IH]; [reflexivity |].
  cbn [webcache.hex list_ascii_of_string forallb].
  rewrite !hexDigit_lower, IH. reflexivity.
Qed.

Lemma append_cancel_r (a : string) : forall b c,
  (a ++ c)%string = (b ++ c)%string -> a = b.
Proof.
  induction a as [| x a IH]; intros [| y b] c H; cbn in H.
  - reflexivity.
  - apply (f_equal String.length) in H. cbn in H.
    rewrite length_append in H. lia.
  - apply (f_equal String.length) in H. cbn in H.
    rewrite length_append in H. lia.
  - injection H as -> H. f_equal. exact (IH b c H).
Qed.

Lemma calculateETag_digest lib fs path etag modTime :
  webcache.calculateETag lib fs path = inr (etag, modTime) ->
  exists digest,
    digestAt lib fs path = Some digest /\
    etag = (webcache.quote ++ webcache.hex digest ++ webcache.quote)%string.
Proof.
  unfold webcache.calculateETag, digestAt.
  destruct (fs path) as [e | f]; [discriminate |].
  destruct (webcache.Contents f) as [e | data]; [discriminate |].
  destruct (webcache.ModTime f) as [e | t]; [discriminate |].
  intros H. injection H as <- _. eexists. split; reflexivity.
Qed.

(** X14.  The entity tag tells contents apart as well as the digest
    does.  When calculateETag succeeds on two files, the two tags are
    equal exactly when the MD5 digests of the contents are; the tag is
    the digest written as two lower-case hexadecimal digits per byte
    between double quotes, so it never contains a quote of its own. *)
Theorem calculateETag_tells_contents_apart
        lib fs1 path1 etag1 t1 fs2 path2 etag2 t2 :
  webcache.calculateETag lib fs1 path1 = inr (etag1, t1) ->
  webcache.calculateETag lib fs2 path2 = inr (etag2, t2) ->
  (etag1 = etag2 <-> digestAt lib fs1 path1 = digestAt lib fs2 path2) /\
  exists digest,
    digestAt lib fs1 path1 = Some digest /\ quoted_hex_of digest etag1.
Proof.
  intros H1 H2.
  apply calculateETag_digest in H1. destruct H1 as (d1 & Hd1 & ->).
  apply calculateETag_digest in H2. destruct H2 as (d2 & Hd2 & ->).
  rewrite Hd1, Hd2. split.
  - split.
    + unfold webcache.quote. cbn [String.append]. intros H.
      injection H as H. apply append_cancel_r in H. apply hex_inj in H.
      congruence.
    + intros H. injection H as ->. reflexivity.
  - exists d1. split; [reflexivity |].
    exists (webcache.hex d1). split; [reflexivity |].
    split; [apply hex_length | apply hex_lower].
Qed.

Lemma calculateETag_tells_contents_apart_witness :
  webcache.calculateETag SampleWeb.lib SampleWeb.atStartup SampleWeb.isoPath
    = inr (SampleWeb.startupETag, 0%Z) /\
  webcache.calculateETag SampleWeb.lib SampleWeb.rebuilt SampleWeb.isoPath
    = inr ((webcache.quote ++ "c0" ++ webcache.quote)%string, 1%Z) /\
  ((SampleWeb.startupETag
      = (webcache.quote ++ "c0" ++ webcache.quote)%string <->
    digestAt SampleWeb.lib SampleWeb.atStartup SampleWeb.isoPath
      = digestAt SampleWeb.lib SampleWeb.rebuilt SampleWeb.isoPath) /\
   exists digest,
     digestAt SampleWeb.lib SampleWeb.atStartup SampleWeb.isoPath
       = Some digest /\
     quoted_hex_of digest SampleWeb.startupETag).
Proof.
  assert (H1 : webcache.calculateETag SampleWeb.lib SampleWeb.atStartup
                 SampleWeb.isoPath = inr (SampleWeb.startupETag, 0%Z))
    by (vm_compute; reflexivity).
  assert (H2 : webcache.calculateETag SampleWeb.lib SampleWeb.rebuilt
                 SampleWeb.isoPath
               = inr ((webcache.quote ++ "c0" ++ webcache.quote)%string, 1%Z))
    by (vm_compute; reflexivity).
  split; [exact H1 |]. split; [exact H2 |].
  exact (@calculateETag_tells_contents_apart
           SampleWeb.lib SampleWeb.atStartup SampleWeb.isoPath
           SampleWeb.startupETag 0%Z SampleWeb.rebuilt SampleWeb.isoPath
           (webcache.quote ++ "c0" ++ webcache.quote)%string 1%Z H1 H2).
Defined.




(** *** Package openshift: the digest handed to the extraction *)


(** *** Commands that depend on a local file *)



(** *** Package openshift: the work directory *)

Lemma oscalls_none evs :
  Forall (fun e => isOsCall e = false) evs -> oscalls evs = [].
Proof.
  induction 1 as [| e evs He _ IH]; [reflexivity |].
  destruct e; cbn in *; try discriminate; exact IH.
Qed.

Lemma recreates_then (env : Env) (i : openshift.Installer)
      (rest : M goerror) :
  (forall h, oscalls (events (rest h)) = []) ->
  forall h,
    recreates_workdir (WorkDir (Paths (openshift.config i)))
      ((LogInfo "Preparing work directory..." [] ;;
        orFail (openshift.cleanWorkDir env i)
               "failed to clean work directory: %w" (
        orFail (osCall env (MkdirAll (WorkDir (Paths (openshift.config i)))
                                     493))
               "failed to create work directory: %w" rest)) h).
Proof.
  intros Hrest h.
  unfold recreates_workdir, orFail, openshift.cleanWorkDir.
  unfold bind; cbn.
  repeat match goal with
         | |- context [os_Stat ?e ?h0 ?p] => destruct (os_Stat e h0 p); cbn
         | |- context [os_Call ?e ?h0 ?c] => destruct (os_Call e h0 c); cbn
         end;
    try match goal with
        | |- context [rest ?h0] =>
            let Ho := fresh "Ho" in
            pose proof (Hrest h0) as Ho;
            destruct (rest h0) as [r evs]; cbn in Ho |- *;
            rewrite ?oscalls_app, ?Ho; cbn
        end;
    eexists; eexists; (split; [reflexivity |]);
    repeat match goal with
           | |- _ /\ _ => split
           | |- _ = _ => reflexivity
           | |- _ <> _ -> _ =>
               let H := fresh "H" in
               intros H; first [exfalso; apply H; reflexivity | clear H]
           | |- _ <> _ => discriminate
           end.
Qed.

(** X18.  PrepareWorkDir starts from an empty work directory.  It looks
    at the work directory first; unless that look reported it missing
    it removes the directory with all it holds, and then creates it
    with mode 0755; when the removal or the creation fails it returns
    the error at once, having looked at no other file and copied
    nothing. *)
Theorem PrepareWorkDir_recreates_workdir lib env i h :
  recreates_workdir (WorkDir (Paths (openshift.config i)))
                    (openshift.PrepareWorkDir lib env i h).
Proof.
  unfold openshift.PrepareWorkDir. apply recreates_then.
  intros h'. apply oscalls_none.
  match goal with
  | |- Forall ?Q (events (?m h')) =>
      assert (Hm : emits_only Q m) by prove_emits; exact (Hm h')
  end.
Qed.

(** *** Package app: the errors of an installation *)




